(** * The pysqlite dialect of SQLAlchemy: a shallow embedding

    Source: [lib/sqlalchemy/dialects/sqlite/pysqlite.py].

    The development follows the layout of the Python module:
    - [Py]: the Python 2 builtins the module relies on (truth values,
      [str.split], [int], [str.strip], [str.lower], the [in] test on
      strings, tuple ordering, exceptions);
    - [Store]: dictionaries as objects behind references;
    - [Util]: the helpers of [sqlalchemy.util] the module calls;
    - [ExecutionContext]: [SQLite_pysqliteExecutionContext.post_exec];
    - [Dialect]: [SQLite_pysqlite] with [__init__], [dbapi],
      [create_connect_args] and [is_disconnect];
    - [Props] and [Samples]: the vocabulary of the properties and the
      objects they are tried on;
    - the facts, per operation. *)

From Stdlib Require Import ZArith String Ascii List Floats Lia.
From stdpp Require Import base gmap strings list pretty.

Open Scope Z_scope.

(* ===================================================================== *)
(** ** Python builtins *)
(* ===================================================================== *)

Module Py.

(** Values that travel through the module: [None], booleans, integers,
    floats and byte strings. *)
Inductive pyval :=
| PNone
| PBool (b : bool)
| PInt (z : Z)
| PFloat (f : float)
| PStr (s : string).

(** The primitive types named at the coercion call sites. *)
Inductive pytype := Tfloat | Tstr | Tint | Tbool.

Definition has_type (t : pytype) (v : pyval) : bool :=
  match t, v with
  | Tfloat, PFloat _ | Tstr, PStr _ | Tint, PInt _ | Tbool, PBool _ => true
  | _, _ => false
  end.

(** Python's [x is None]. *)
Definition is_None (v : pyval) : bool :=
  match v with PNone => true | _ => false end.

(** Truth value of an optional string attribute ([None] and [''] are
    false) and of an optional integer attribute ([None] and [0] are
    false). *)
Definition truthy_str (o : option string) : bool :=
  match o with
  | Some (String _ _) => true
  | _ => false
  end.

Definition truthy_int (o : option Z) : bool :=
  match o with
  | Some z => negb (z =? 0)
  | None => false
  end.

(** Exceptions: the classes of the raised object, most derived first,
    and the text [str(e)] gives. *)
Record exception := Exc { exc_mro : list string; exc_str : string }.

Definition isinstance (e : exception) (cls : string) : bool :=
  bool_decide (cls ∈ exc_mro e).

Definition ValueError (msg : string) : exception :=
  Exc ["ValueError"; "StandardError"; "Exception"]%string msg.

(** Result of running a piece of Python: a value or a raised exception. *)
Inductive outcome (A : Type) :=
| Returned (a : A)
| Raised (e : exception).
Arguments Returned {A} a.
Arguments Raised {A} e.

Definition obind {A B} (x : outcome A) (k : A -> outcome B) : outcome B :=
  match x with
  | Returned a => k a
  | Raised e => Raised e
  end.

(** *** Strings *)

Definition is_space (c : ascii) : bool :=
  let n := N_of_ascii c in
  ((9 <=? n) && (n <=? 13) || (n =? 32))%N.

Definition is_digit (c : ascii) : bool :=
  let n := N_of_ascii c in
  ((48 <=? n) && (n <=? 57))%N.

Definition digit_val (c : ascii) : Z := Z.of_N (N_of_ascii c) - 48.

Definition lower_char (c : ascii) : ascii :=
  let n := N_of_ascii c in
  if ((65 <=? n) && (n <=? 90))%N then ascii_of_N (n + 32) else c.

(** [s.lower()] *)
Fixpoint lower (s : string) : string :=
  match s with
  | EmptyString => EmptyString
  | String c r => String (lower_char c) (lower r)
  end.

Fixpoint lstrip (s : string) : string :=
  match s with
  | String c r => if is_space c then lstrip r else s
  | EmptyString => EmptyString
  end.

Fixpoint rstrip (s : string) : string :=
  match s with
  | EmptyString => EmptyString
  | String c r =>
      match rstrip r with
      | EmptyString => if is_space c then EmptyString else String c EmptyString
      | r' => String c r'
      end
  end.

(** [s.strip()] *)
Definition strip (s : string) : string := rstrip (lstrip s).

(** [s.split(sep)] for a one-character separator: the pieces between
    the separators, empty pieces included. *)
Fixpoint split (sep : ascii) (s : string) : list string :=
  match s with
  | EmptyString => [EmptyString]
  | String c r =>
      if Ascii.eqb c sep then EmptyString :: split sep r
      else match split sep r with
           | p :: ps => String c p :: ps
           | [] => [String c EmptyString]
           end
  end.

(** [sep.join(l)] *)
Fixpoint join (sep : string) (l : list string) : string :=
  match l with
  | [] => EmptyString
  | [x] => x
  | x :: r => x +:+ sep +:+ join sep r
  end.

(** [s.startswith(p)] and [p in s] *)
Fixpoint startswith (p s : string) : bool :=
  match p, s with
  | EmptyString, _ => true
  | String a p', String b s' => Ascii.eqb a b && startswith p' s'
  | String _ _, EmptyString => false
  end.

Fixpoint contains (sub s : string) : bool :=
  startswith sub s ||
  match s with
  | EmptyString => false
  | String _ s' => contains sub s'
  end.

(** *** [int] on a string

    Python 2 reads a decimal integer literal: blanks, an optional sign,
    blanks, one or more digits, blanks.  Anything else raises
    [ValueError]. *)
Fixpoint digits_value (acc : Z) (s : string) : option Z :=
  match s with
  | EmptyString => Some acc
  | String c r =>
      if is_digit c then digits_value (10 * acc + digit_val c) r else None
  end.

Definition unsigned_literal (s : string) : option Z :=
  match lstrip s with
  | EmptyString => None
  | body => digits_value 0 body
  end.

Definition int_literal (s : string) : option Z :=
  match strip s with
  | String "-" r => Z.opp <$> unsigned_literal r
  | String "+" r => unsigned_literal r
  | r => unsigned_literal r
  end.

Definition int (s : string) : outcome Z :=
  match int_literal s with
  | Some z => Returned z
  | None =>
      Raised (ValueError ("invalid literal for int() with base 10: '" +:+ s +:+ "'"))
  end.

(** *** Tuples of version components

    A version tuple holds integers and possibly a string component.
    Python 2 orders an integer before every string, integers by value
    and strings byte-wise; tuples are ordered by their first differing
    position, a proper prefix coming first. *)
Inductive vcomp := VInt (z : Z) | VStr (s : string).

Definition vcomp_eq (a b : vcomp) : bool :=
  match a, b with
  | VInt x, VInt y => x =? y
  | VStr x, VStr y => String.eqb x y
  | _, _ => false
  end.

Definition vcomp_lt (a b : vcomp) : bool :=
  match a, b with
  | VInt x, VInt y => x <? y
  | VInt _, VStr _ => true
  | VStr _, VInt _ => false
  | VStr x, VStr y => String.ltb x y
  end.

Definition vcomp_str (a : vcomp) : string :=
  match a with
  | VInt z => pretty z
  | VStr s => s
  end.

Section tuple_order.
Context {A : Type} (eqb ltb : A -> A -> bool).

(** [a < b] *)
Fixpoint tuple_lt (a b : list A) : bool :=
  match a, b with
  | [], [] => false
  | [], _ :: _ => true
  | _ :: _, [] => false
  | x :: a', y :: b' => if eqb x y then tuple_lt a' b' else ltb x y
  end.

(** [a >= b], with [x >= y] on components read as [y < x] or equal. *)
Fixpoint tuple_ge (a b : list A) : bool :=
  match a, b with
  | _, [] => true
  | [], _ :: _ => false
  | x :: a', y :: b' => if eqb x y then tuple_ge a' b' else ltb y x
  end.
End tuple_order.

End Py.

Import Py.

(* ===================================================================== *)
(** ** The store of dictionaries *)
(* ===================================================================== *)

(** Python dictionaries are objects: the query mapping of a URL and the
    keyword mapping handed to the driver are references into a store.
    A computation takes the store and gives the new store with its
    outcome; [None] means a reference that names no object, which no
    Python run can produce. *)
Module Store.

Abbreviation loc := positive.
Abbreviation dict := (gmap string pyval).
Abbreviation heap := (gmap positive (gmap string pyval)).

Definition M (A : Type) : Type := heap -> option (heap * outcome A).

Definition ret {A} (a : A) : M A := fun h => Some (h, Returned a).

Definition raise {A} (e : exception) : M A := fun h => Some (h, Raised e).

Definition bind {A B} (c : M A) (k : A -> M B) : M B :=
  fun h =>
    match c h with
    | Some (h', Returned a) => k a h'
    | Some (h', Raised e) => Some (h', Raised e)
    | None => None
    end.

(** Lifting of a store-free outcome. *)
Definition lift {A} (x : outcome A) : M A := fun h => Some (h, x).

(** Reading and overwriting the dictionary behind a reference. *)
Definition load (l : loc) : M dict :=
  fun h => match h !! l with
           | Some d => Some (h, Returned d)
           | None => None
           end.

Definition store (l : loc) (d : dict) : M unit :=
  fun h => match h !! l with
           | Some _ => Some (<[l := d]> h, Returned tt)
           | None => None
           end.

(** [d.copy()]: a new dictionary with the same entries. *)
Definition copy (l : loc) : M loc :=
  fun h => match h !! l with
           | Some d => let l' := fresh (dom h) in
                       Some (<[l' := d]> h, Returned l')
           | None => None
           end.

End Store.

Import Store.

Notation "x <- c ;; k" := (bind c (fun x => k))
  (at level 100, c at next level, right associativity).
Notation "c ;;; k" := (bind c (fun _ => k))
  (at level 100, right associativity).

(* ===================================================================== *)
(** ** sqlalchemy.util *)
(* ===================================================================== *)

Module Util.

(** Modelled from the spec: [util.asbool] is not part of the source
    file.  The spec asks the boolean coercion to accept the common
    truthy and falsy spellings and not only the exact words; the model
    trims the text, ignores case, and knows the spellings below.  A text
    that is neither is rejected with [ValueError], like the conversions
    of Python itself. *)
Definition truthy_spellings : list string :=
  ["true"; "yes"; "on"; "y"; "t"; "1"]%string.

Definition falsy_spellings : list string :=
  ["false"; "no"; "off"; "n"; "f"; "0"]%string.

Definition asbool (s : string) : outcome bool :=
  let w := lower (strip s) in
  if bool_decide (w ∈ truthy_spellings) then Returned true
  else if bool_decide (w ∈ falsy_spellings) then Returned false
  else Raised (ValueError ("String is not true/false: '" +:+ w +:+ "'")).

Section coerce.
(** Python's [float] on a string: reading a floating-point literal is
    left to the caller of the model. *)
Variable float_literal : string -> option float.

Definition float_of_str (s : string) : outcome float :=
  match float_literal s with
  | Some f => Returned f
  | None => Raised (ValueError ("invalid literal for float(): " +:+ s))
  end.

(** The conversion of a string value to a primitive type. *)
Definition convert (t : pytype) (s : string) : outcome pyval :=
  match t with
  | Tfloat => obind (float_of_str s) (fun f => Returned (PFloat f))
  | Tstr => Returned (PStr s)
  | Tint => obind (int s) (fun z => Returned (PInt z))
  | Tbool => obind (asbool s) (fun b => Returned (PBool b))
  end.

(** Modelled from the spec: [util.coerce_kw_type] is not part of the
    source file.  If [key] is present in the mapping [kw], its string
    value is converted to the type [type_] and stored back under the
    same key; an absent key is left absent.  The spec speaks of
    string values only: a value that is not a string stays as it
    is. *)
Definition coerce_kw_type (kw : loc) (key : string) (type_ : pytype) : M unit :=
  d <- load kw;;
  match d !! key with
  | Some (PStr s) =>
      v <- lift (convert type_ s);;
      store kw (<[key := v]> d)
  | Some _ => ret tt
  | None => ret tt
  end.
End coerce.

(** Modelled from the spec: [util.warn] is not part of the source file.
    A warning is emitted and the caller goes on: the text is appended
    to the log of warnings. *)
Definition warn (msg : string) (log : list string) : list string :=
  log ++ [msg].

End Util.

(* ===================================================================== *)
(** ** SQLite_pysqliteExecutionContext *)
(* ===================================================================== *)

Module ExecutionContext.

(** The attributes of the execution context that [post_exec] reads and
    writes (the base class [DefaultExecutionContext] is not part of the
    source file): the two flags of the statement, the list of last
    inserted ids, and [cursor_lastrowid] for [self.cursor.lastrowid]. *)
Record SQLite_pysqliteExecutionContext := {
  isinsert : bool;
  executemany : bool;
  _last_inserted_ids : list pyval;
  cursor_lastrowid : pyval
}.

Definition set_last_inserted_ids (ids : list pyval)
    (self : SQLite_pysqliteExecutionContext) : SQLite_pysqliteExecutionContext :=
  {| isinsert := isinsert self;
     executemany := executemany self;
     _last_inserted_ids := ids;
     cursor_lastrowid := cursor_lastrowid self |}.

Definition post_exec (self : SQLite_pysqliteExecutionContext)
    : SQLite_pysqliteExecutionContext :=
  if isinsert self && negb (executemany self) then
    if negb (0 <? length (_last_inserted_ids self))%nat
       || match _last_inserted_ids self with
          | x :: _ => is_None x
          | [] => false
          end
    then set_last_inserted_ids
           ([cursor_lastrowid self] ++ drop 1 (_last_inserted_ids self)) self
    else self
  else self.

End ExecutionContext.

(* ===================================================================== *)
(** ** SQLite_pysqlite *)
(* ===================================================================== *)

Module Dialect.

(** The attributes of a driver module ([pysqlite2.dbapi2] or
    [sqlite3.dbapi2]) the dialect reads.  [ProgrammingError] is the
    name of the driver's exception class. *)
Record Driver := {
  version_info : list vcomp;
  sqlite_version_info : list Z;
  sqlite_version : string;
  ProgrammingError : string
}.

(** Modelled from the spec: the base class [SQLiteDialect] is not part
    of the source file.  The record is the dialect object as the base
    constructor leaves it, with the optional driver handle and the two
    capability flags: [self_dbapi] is the attribute [self.dbapi]
    ([None] when no driver module was handed over). *)
Record SQLite_pysqlite := {
  self_dbapi : option Driver;
  supports_default_values : bool;
  supports_cast : bool
}.

Definition set_supports_default_values (b : bool) (self : SQLite_pysqlite) :=
  {| self_dbapi := self_dbapi self;
     supports_default_values := b;
     supports_cast := supports_cast self |}.

Definition set_supports_cast (b : bool) (self : SQLite_pysqlite) :=
  {| self_dbapi := self_dbapi self;
     supports_default_values := supports_default_values self;
     supports_cast := b |}.

(** *** [__init__] *)

Fixpoint ints (l : list string) : outcome (list Z) :=
  match l with
  | [] => Returned []
  | x :: r => obind (int x) (fun z => obind (ints r) (fun zs => Returned (z :: zs)))
  end.

(** The local function [vers] of [__init__]. *)
Definition vers (num : string) : outcome (list Z) := ints (split "." num).

Definition outdated_warning (sqlite_ver : list vcomp) : string :=
  "The installed version of pysqlite2 ("
  +:+ join "." (map vcomp_str sqlite_ver)
  +:+ ") is out-dated and will cause errors in some cases.  Version 2.1.3 or greater is recommended.".

(** The constructor, run on the object the base class has set up.  It
    gives the warnings emitted and either the finished dialect or the
    exception that ended the construction. *)
Definition __init__ (self : SQLite_pysqlite) : list string * outcome SQLite_pysqlite :=
  match self_dbapi self with
  | Some dbapi =>
      let sqlite_ver := version_info dbapi in
      let log :=
        if tuple_lt vcomp_eq vcomp_lt sqlite_ver [VInt 2; VInt 1; VStr "3"]
        then Util.warn (outdated_warning sqlite_ver) []
        else [] in
      let self1 :=
        if tuple_lt Z.eqb Z.ltb (sqlite_version_info dbapi) [3; 3; 8]
        then set_supports_default_values false self
        else self in
      (log,
       obind (vers (sqlite_version dbapi)) (fun v =>
       obind (vers "3.2.3") (fun threshold =>
       Returned (set_supports_cast (tuple_ge Z.eqb Z.ltb v threshold) self1))))
  | None => ([], Returned (set_supports_cast true self))
  end.

(** *** [dbapi] *)

(** What an [import] statement does depends on the installation: a
    module name either loads a driver module or raises.  The attempts
    are logged in order. *)
Inductive import_result :=
| Loaded (m : Driver)
| Failed (e : exception).

Definition import_dbapi2 (installed : string -> import_result) (name : string)
    (attempts : list string) : list string * outcome Driver :=
  (attempts ++ [name],
   match installed name with
   | Loaded m => Returned m
   | Failed e => Raised e
   end).

(** The class method [dbapi]. *)
Definition dbapi (installed : string -> import_result) : list string * outcome Driver :=
  match import_dbapi2 installed "pysqlite2" [] with
  | (tried, Returned sqlite) => (tried, Returned sqlite)
  | (tried, Raised e) =>
      if isinstance e "ImportError" then
        match import_dbapi2 installed "sqlite3" tried with
        | (tried', Returned sqlite) => (tried', Returned sqlite)
        | (tried', Raised e') =>
            if isinstance e' "ImportError" then (tried', Raised e)
            else (tried', Raised e')
        end
      else (tried, Raised e)
  end.

(** *** [_get_server_version_info] *)

Definition AttributeError (msg : string) : exception :=
  Exc ["AttributeError"; "StandardError"; "Exception"]%string msg.

Definition dbapi_attr {A} (self : SQLite_pysqlite) (attr : string)
    (get : Driver -> A) : outcome A :=
  match self_dbapi self with
  | Some d => Returned (get d)
  | None =>
      Raised (AttributeError ("'NoneType' object has no attribute '" +:+ attr +:+ "'"))
  end.

Definition _get_server_version_info (self : SQLite_pysqlite) : outcome (list Z) :=
  dbapi_attr self "sqlite_version_info" sqlite_version_info.

(** *** [is_disconnect] *)

Definition closed_database : string := "Cannot operate on a closed database.".

Definition is_disconnect (self : SQLite_pysqlite) (e : exception) : outcome bool :=
  obind (dbapi_attr self "ProgrammingError" ProgrammingError) (fun cls =>
  Returned (isinstance e cls && contains closed_database (exc_str e))).

(** *** [create_connect_args] *)

(** Modelled from the spec: the URL class of [sqlalchemy.engine.url] is
    not part of the source file.  A URL has a scheme, an optional
    username, password, host and port, a path, and a mapping of query
    options; the mapping is a dictionary object, held by reference. *)
Record URL := {
  drivername : string;
  username : option string;
  password : option string;
  host : option string;
  port : option Z;
  database : option string;
  query : loc
}.

Definition ArgumentError (msg : string) : exception :=
  Exc ["ArgumentError"; "SQLAlchemyError"; "Exception"]%string msg.

Definition nl : string := String "010" EmptyString.

Definition memory_form : string := " sqlite:///:memory: (or, sqlite://)".
Definition relative_form : string := " sqlite:///relative/path/to/file.db".
Definition absolute_form : string := " sqlite:////absolute/path/to/file.db".

Definition invalid_url_message (url_text : string) : string :=
  "Invalid SQLite URL: " +:+ url_text +:+ nl
  +:+ "Valid SQLite URL forms are:" +:+ nl
  +:+ memory_form +:+ nl
  +:+ relative_form +:+ nl
  +:+ absolute_form.

(** The five recognised options with their types, in the order of the
    calls. *)
Definition option_types : list (string * pytype) :=
  [("timeout", Tfloat); ("isolation_level", Tstr); ("detect_types", Tint);
   ("check_same_thread", Tbool); ("cached_statements", Tint)]%string.

Section connect_args.
(** [float] on a string, and [str(url)] of the URL class, which is
    not part of the source file. *)
Variable float_literal : string -> option float.
Variable URL_str : URL -> heap -> string.

Definition create_connect_args (url : URL) : M (list pyval * loc) :=
  fun h =>
  if truthy_str (username url) || truthy_str (password url)
     || truthy_str (host url) || truthy_int (port url)
  then raise (ArgumentError (invalid_url_message (URL_str url h))) h
  else
    let filename :=
      if truthy_str (database url) then default ":memory:"%string (database url)
      else ":memory:"%string in
    (opts <- copy (query url);;
     Util.coerce_kw_type float_literal opts "timeout" Tfloat;;;
     Util.coerce_kw_type float_literal opts "isolation_level" Tstr;;;
     Util.coerce_kw_type float_literal opts "detect_types" Tint;;;
     Util.coerce_kw_type float_literal opts "check_same_thread" Tbool;;;
     Util.coerce_kw_type float_literal opts "cached_statements" Tint;;;
     ret ([PStr filename], opts)) h.
End connect_args.

End Dialect.

Import Dialect.

(* ===================================================================== *)
(** ** Vocabulary of the properties *)
(* ===================================================================== *)

Module Props.

(** [sub] occurs in [s]. *)
Definition includes (sub s : string) : Prop :=
  exists pre post, s = pre +:+ sub +:+ post.

(** Lexicographic order on tuples of integers: a proper prefix comes
    first, otherwise the first differing position decides. *)
Inductive lex_lt : list Z -> list Z -> Prop :=
| lex_lt_nil y b : lex_lt [] (y :: b)
| lex_lt_head x y a b : x < y -> lex_lt (x :: a) (y :: b)
| lex_lt_tail x a b : lex_lt a b -> lex_lt (x :: a) (x :: b).

(** A part of the URL is non-empty when Python takes it as true: a
    text other than [''], a port other than [0]. *)
Definition nonempty_text (o : option string) : Prop :=
  exists s, o = Some s /\ s <> EmptyString.

Definition nonempty_port (o : option Z) : Prop :=
  exists p, o = Some p /\ p <> 0.

Definition has_credentials_or_address (url : URL) : Prop :=
  nonempty_text (username url) \/ nonempty_text (password url)
  \/ nonempty_text (host url) \/ nonempty_port (port url).

(** The positional argument a URL stands for. *)
Definition filename_of (url : URL) : string :=
  match database url with
  | None | Some EmptyString => ":memory:"
  | Some path => path
  end.

(** The declared type of an option key, if it is a recognised one. *)
Fixpoint declared_type (opts : list (string * pytype)) (key : string) : option pytype :=
  match opts with
  | [] => None
  | (k, t) :: r => if String.eqb k key then Some t else declared_type r key
  end.

Section coercion.
Variable float_literal : string -> option float.

(** The coercion of one key and of a list of keys, on the entries of
    a dictionary. *)
Definition coerce_one (key : string) (t : pytype) (d : dict) : outcome dict :=
  match d !! key with
  | Some (PStr s) =>
      obind (Util.convert float_literal t s) (fun v => Returned (<[key := v]> d))
  | _ => Returned d
  end.

Fixpoint coerce_all (opts : list (string * pytype)) (d : dict) : outcome dict :=
  match opts with
  | [] => Returned d
  | (k, t) :: r => obind (coerce_one k t d) (coerce_all r)
  end.

(** The same list of keys as calls on a dictionary in the store. *)
Fixpoint coerce_seq (kw : loc) (opts : list (string * pytype)) : M unit :=
  match opts with
  | [] => ret tt
  | (k, t) :: r =>
      Util.coerce_kw_type float_literal kw k t;;; coerce_seq kw r
  end.

(** Every recognised option that is present with a string value can
    be converted to its type. *)
Definition convertible (d : dict) : Prop :=
  forall k t s, (k, t) ∈ option_types -> d !! k = Some (PStr s) ->
    exists v, Util.convert float_literal t s = Returned v.
End coercion.

(** What a caller sees of the result of [create_connect_args]: the
    positional arguments with the entries of the keyword dictionary,
    or the exception. *)
Definition observe (h : heap) (r : outcome (list pyval * loc))
    : outcome (list pyval * option dict) :=
  match r with
  | Returned (args, l) => Returned (args, h !! l)
  | Raised e => Raised e
  end.

(** A version component that [int] accepts. *)
Definition integer_literal (s : string) : Prop := is_Some (int_literal s).

(** The test of [post_exec]: an insert that is not an executemany
    whose list of ids is empty or starts with [None]. *)
Definition needs_lastrowid (self : ExecutionContext.SQLite_pysqliteExecutionContext) : Prop :=
  ExecutionContext.isinsert self = true /\ ExecutionContext.executemany self = false
  /\ (ExecutionContext._last_inserted_ids self = [] \/ head (ExecutionContext._last_inserted_ids self) = Some PNone).

(** A text made of decimal digits only. *)
Fixpoint digits_only (s : string) : bool :=
  match s with
  | EmptyString => true
  | String c r => is_digit c && digits_only r
  end.

(** The dotted text of a tuple of integers, as the warning of
    [__init__] prints a version: ['.'.join([str(x) for x in v])]. *)
Definition dotted (v : list Z) : string :=
  join "." (map (fun z => vcomp_str (VInt z)) v).

(** The explicit reading of "not below (3, 2, 3)" on the components of
    a version tuple of any length. *)
Definition cast_supported (v : list Z) : bool :=
  match v with
  | [] => false
  | [a] => 3 <? a
  | [a; b] => (3 <? a) || ((a =? 3) && (2 <? b))
  | a :: b :: c :: _ =>
      (3 <? a) || ((a =? 3) && ((2 <? b) || ((b =? 2) && (3 <=? c))))
  end.

(** A version text with an empty component. *)
Definition has_empty_component (s : string) : Prop :=
  s = EmptyString
  \/ (exists b, s = "." +:+ b)
  \/ (exists a, s = a +:+ ".")
  \/ (exists a b, s = a +:+ ".." +:+ b).

End Props.

Import Props.

(* ===================================================================== *)
(** ** Sample objects *)
(* ===================================================================== *)

Module Samples.
Import ExecutionContext.

Definition sample_context : SQLite_pysqliteExecutionContext :=
  {| isinsert := true; executemany := false;
     _last_inserted_ids := [PNone; PInt 4; PStr "k"];
     cursor_lastrowid := PInt 17 |}.

Definition sample_driver : Driver :=
  {| version_info := [VInt 2; VInt 6; VInt 0];
     sqlite_version_info := [3; 8; 0];
     sqlite_version := "3.8.0";
     ProgrammingError := "sqlite3.ProgrammingError" |}.

Definition sample_dialect : SQLite_pysqlite :=
  {| self_dbapi := Some sample_driver;
     supports_default_values := true;
     supports_cast := true |}.

Definition closed_error : exception :=
  Exc ["sqlite3.ProgrammingError"; "sqlite3.DatabaseError"; "sqlite3.Error"]
      "Cannot operate on a closed database.".

Definition ImportError (msg : string) : exception :=
  Exc ["ImportError"; "StandardError"; "Exception"] msg.

Definition nothing_installed (name : string) : import_result :=
  Failed (ImportError ("No module named " +:+ name)).

Definition only_sqlite3 (name : string) : import_result :=
  if String.eqb name "sqlite3" then Loaded sample_driver
  else nothing_installed name.

Definition beta_driver : Driver :=
  {| version_info := [VInt 2; VInt 6; VInt 0];
     sqlite_version_info := [3; 8; 0];
     sqlite_version := "3.8.0b";
     ProgrammingError := "sqlite3.ProgrammingError" |}.

Definition beta_dialect : SQLite_pysqlite :=
  {| self_dbapi := Some beta_driver;
     supports_default_values := true;
     supports_cast := true |}.

(** Dialects around drivers that report the threshold version of the
    cast support, and a dialect without a driver. *)
Definition driver_3_2_3 : Driver :=
  {| version_info := [VInt 2; VInt 1; VInt 0];
     sqlite_version_info := [3; 2; 3];
     sqlite_version := "3.2.3";
     ProgrammingError := "sqlite3.ProgrammingError" |}.

Definition dialect_3_2_3 : SQLite_pysqlite :=
  {| self_dbapi := Some driver_3_2_3;
     supports_default_values := true;
     supports_cast := true |}.

Definition dialect_without_driver : SQLite_pysqlite :=
  {| self_dbapi := None;
     supports_default_values := true;
     supports_cast := true |}.

(** A reading of float literals that knows one text, a rendering of
    URLs, two URLs and a store that holds their query dictionary. *)
Definition sample_float_literal (s : string) : option float :=
  if String.eqb s "2.5" then Some 2.5%float else None.

Definition sample_URL_str (url : URL) (h : heap) : string :=
  drivername url +:+ "://" +:+ default EmptyString (host url)
  +:+ "/" +:+ default EmptyString (database url).

Definition sample_query : dict :=
  <["timeout" := PStr "2.5"]>
    (<["check_same_thread" := PStr "false"]>
       (<["detect_types" := PStr "1"]> (<["mode" := PStr "ro"]> ∅))).

Definition sample_heap : heap := <[1%positive := sample_query]> ∅.

Definition file_url : URL :=
  {| drivername := "sqlite"; username := None; password := None;
     host := None; port := None; database := Some "/a/b.db"%string;
     query := 1%positive |}.

Definition host_url : URL :=
  {| drivername := "sqlite"; username := None; password := None;
     host := Some "localhost"%string; port := None;
     database := Some "a.db"%string; query := 1%positive |}.

(** A driver with an old client library and a two-component engine
    version, and one whose engine version ends with a dot. *)
Definition legacy_driver : Driver :=
  {| version_info := [VInt 2; VInt 1; VInt 5];
     sqlite_version_info := [3; 2];
     sqlite_version := "3.2";
     ProgrammingError := "pysqlite2.ProgrammingError" |}.

Definition legacy_dialect : SQLite_pysqlite :=
  {| self_dbapi := Some legacy_driver;
     supports_default_values := true;
     supports_cast := true |}.

Definition dotted_driver : Driver :=
  {| version_info := [VInt 2; VInt 6; VInt 0];
     sqlite_version_info := [3; 8];
     sqlite_version := "3.8.";
     ProgrammingError := "sqlite3.ProgrammingError" |}.

Definition dotted_dialect : SQLite_pysqlite :=
  {| self_dbapi := Some dotted_driver;
     supports_default_values := true;
     supports_cast := true |}.

(** Installations where an import breaks with something else than an
    [ImportError]. *)
Definition broken_extension : exception :=
  Exc ["SystemError"; "StandardError"; "Exception"] "dynamic module not initialized properly".

Definition broken_pysqlite2 (name : string) : import_result :=
  if String.eqb name "pysqlite2" then Failed broken_extension
  else Loaded sample_driver.

Definition broken_sqlite3 (name : string) : import_result :=
  if String.eqb name "sqlite3" then Failed broken_extension
  else nothing_installed name.

(** A query dictionary with an option that is no integer, in a store,
    and a URL that differs from [file_url] in what the check ignores. *)
Definition bad_query : dict :=
  <["detect_types" := PStr "all"]> (<["timeout" := PStr "2.5"]> ∅).

Definition bad_heap : heap := <[1%positive := bad_query]> ∅.

Definition blank_credentials_url : URL :=
  {| drivername := "sqlite+pysqlite"; username := Some EmptyString;
     password := None; host := Some EmptyString; port := Some 0;
     database := Some "/a/b.db"%string; query := 1%positive |}.

End Samples.

Import Samples.

(* ===================================================================== *)
(** ** Facts about the builtins *)
(* ===================================================================== *)

Section strings.

Lemma append_nil_l (s : string) : EmptyString +:+ s = s.
Proof. reflexivity. Qed.

Lemma append_cons (c : ascii) (a b : string) :
  String c a +:+ b = String c (a +:+ b).
Proof. reflexivity. Qed.

Lemma append_assoc (a b c : string) : (a +:+ b) +:+ c = a +:+ b +:+ c.
Proof.
  induction a as [|x a IH]; [reflexivity |].
  rewrite !append_cons. now rewrite IH.
Qed.

Lemma startswith_spec (p s : string) :
  startswith p s = true <-> exists post, s = p +:+ post.
Proof.
  revert s. induction p as [|a p IH]; intros s; simpl.
  - split; [intros _; now exists s | reflexivity].
  - destruct s as [|b s].
    + split; [discriminate | intros [post H]; discriminate].
    + rewrite andb_true_iff, Ascii.eqb_eq, IH. split.
      * intros [-> [post ->]]. now exists post.
      * intros [post H]. rewrite append_cons in H.
        injection H as -> ->. eauto.
Qed.

Lemma contains_spec (sub s : string) :
  contains sub s = true <-> includes sub s.
Proof.
  unfold includes. induction s as [|c s IH].
  - cbn [contains]. rewrite orb_false_r, startswith_spec. split.
    + intros [post H]. now exists EmptyString, post.
    + intros [[|x pre] [post H]]; [now exists post | discriminate].
  - cbn [contains]. rewrite orb_true_iff, startswith_spec, IH. split.
    + intros [[post H] | (pre & post & H)].
      * now exists EmptyString, post.
      * exists (String c pre), post. rewrite append_cons. now rewrite H.
    + intros [[|x pre] [post H]].
      * left. now exists post.
      * right. rewrite append_cons in H. injection H as -> ->. eauto.
Qed.

Lemma split_nonempty (sep : ascii) (s : string) : split sep s <> [].
Proof.
  destruct s as [|c r]; simpl; [discriminate |].
  destruct (Ascii.eqb c sep); [discriminate |].
  destruct (split sep r); discriminate.
Qed.

Lemma join_cons (sep x : string) (l : list string) :
  l <> [] -> join sep (x :: l) = x +:+ sep +:+ join sep l.
Proof. destruct l; [congruence | reflexivity]. Qed.

(** Joining the pieces of a split with the separator gives the string
    back. *)
Lemma join_split (sep : ascii) (s : string) :
  join (String sep EmptyString) (split sep s) = s.
Proof.
  induction s as [|c r IH]; [reflexivity |]. simpl.
  destruct (Ascii.eqb_spec c sep) as [->|Hne].
  - rewrite join_cons by apply split_nonempty. now rewrite IH.
  - pose proof (split_nonempty sep r) as Hnil.
    destruct (split sep r) as [|p ps]; [congruence |].
    destruct ps as [|p' ps].
    + simpl in *. now rewrite IH.
    + rewrite join_cons by discriminate.
      rewrite join_cons in IH by discriminate.
      rewrite append_cons. now rewrite IH.
Qed.

Lemma includes_middle (pre sub post : string) :
  includes sub (pre +:+ sub +:+ post).
Proof. now exists pre, post. Qed.

End strings.

Section tuples.

Lemma tuple_lt_spec (a b : list Z) :
  tuple_lt Z.eqb Z.ltb a b = true <-> lex_lt a b.
Proof.
  revert b. induction a as [|x a IH]; intros [|y b]; simpl.
  - split; [discriminate | inversion 1].
  - split; [constructor | reflexivity].
  - split; [discriminate | inversion 1].
  - destruct (Z.eqb_spec x y) as [->|Hne].
    + rewrite IH. split; [now constructor |].
      inversion 1; subst; [lia | assumption].
    + rewrite Z.ltb_lt. split; [now constructor |].
      inversion 1; subst; [assumption | congruence].
Qed.

Lemma tuple_ge_spec (a b : list Z) :
  tuple_ge Z.eqb Z.ltb a b = true <-> ~ lex_lt a b.
Proof.
  revert b. induction a as [|x a IH]; intros [|y b]; simpl.
  - split; [inversion 2 | reflexivity].
  - split; [discriminate | intros H; destruct H; constructor].
  - split; [inversion 2 | reflexivity].
  - destruct (Z.eqb_spec x y) as [->|Hne].
    + rewrite IH. split.
      * intros H; inversion 1; subst; [lia | auto].
      * intros H Hab. apply H. now constructor.
    + rewrite Z.ltb_lt. split.
      * intros H; inversion 1; subst; [lia | congruence].
      * intros H. destruct (Z.lt_trichotomy x y) as [Hlt | [-> | Hgt]];
          [destruct H; now constructor | congruence | assumption].
Qed.

End tuples.

(* ===================================================================== *)
(** ** post_exec *)
(* ===================================================================== *)

Module ExecutionContextFacts.
Import ExecutionContext.

Lemma is_None_spec (v : pyval) : is_None v = true <-> v = PNone.
Proof. destruct v; simpl; split; congruence. Qed.

(** C10.  After an insert that is not an executemany, when the list of
    last inserted ids is empty or its first element is [None], the
    first element of the list becomes the cursor's last row id and the
    elements after the first are the ones from before; in every other
    case the list is the one from before. *)
Theorem post_exec_last_inserted_ids (self : SQLite_pysqliteExecutionContext) :
  (needs_lastrowid self ->
     _last_inserted_ids (post_exec self) !! 0%nat = Some (cursor_lastrowid self)
     /\ forall i : nat, _last_inserted_ids (post_exec self) !! S i
                        = _last_inserted_ids self !! S i)
  /\ (~ needs_lastrowid self ->
        _last_inserted_ids (post_exec self) = _last_inserted_ids self).
Proof.
  unfold needs_lastrowid, post_exec.
  destruct self as [ins many ids rowid]; simpl. split.
  - intros (-> & -> & Hids). simpl.
    destruct ids as [|x ids]; simpl.
    + split; [reflexivity | intros i; reflexivity].
    + destruct Hids as [Hnil | Hhd]; [discriminate |].
      injection Hhd as ->. simpl. split; [reflexivity | intros i; reflexivity].
  - intros Hno. destruct ins, many; simpl; try reflexivity.
    destruct ids as [|x ids]; simpl.
    + destruct Hno. auto.
    + destruct (is_None x) eqn:Hx; simpl; [| reflexivity].
      apply is_None_spec in Hx as ->. destruct Hno. auto.
Qed.

Lemma post_exec_last_inserted_ids_witness :
  needs_lastrowid sample_context
  /\ _last_inserted_ids (post_exec sample_context) !! 0%nat = Some (PInt 17)
  /\ ~ needs_lastrowid (post_exec sample_context)
  /\ _last_inserted_ids (post_exec (post_exec sample_context))
     = [PInt 17; PInt 4; PStr "k"].
Proof.
  assert (Hyes : needs_lastrowid sample_context).
  { unfold needs_lastrowid; simpl; auto. }
  assert (Hno : ~ needs_lastrowid (post_exec sample_context)).
  { unfold needs_lastrowid; simpl. intros (_ & _ & [H | H]); discriminate. }
  split; [exact Hyes |]. split.
  - exact (proj1 (proj1 (post_exec_last_inserted_ids sample_context) Hyes)).
  - split; [exact Hno |].
    exact (proj2 (post_exec_last_inserted_ids (post_exec sample_context)) Hno).
Defined.

End ExecutionContextFacts.

(* ===================================================================== *)
(** ** is_disconnect and dbapi *)
(* ===================================================================== *)

Module DriverFacts.

(** C7.  With a driver loaded, [is_disconnect] returns a boolean, and
    it is [True] exactly when the error is an instance of the driver's
    [ProgrammingError] class and its text contains
    "Cannot operate on a closed database.". *)
Theorem is_disconnect_spec (self : SQLite_pysqlite) (d : Driver) (e : exception) :
  self_dbapi self = Some d ->
  exists b, is_disconnect self e = Returned b
    /\ (b = true <->
        ProgrammingError d ∈ exc_mro e
        /\ includes "Cannot operate on a closed database." (exc_str e)).
Proof.
  intros Hd. unfold is_disconnect, dbapi_attr. rewrite Hd. simpl.
  eexists; split; [reflexivity |].
  rewrite andb_true_iff, contains_spec. unfold isinstance.
  rewrite bool_decide_eq_true. reflexivity.
Qed.

Lemma is_disconnect_spec_witness :
  exists b, is_disconnect sample_dialect closed_error = Returned b
    /\ (b = true <->
        ProgrammingError sample_driver ∈ exc_mro closed_error
        /\ includes "Cannot operate on a closed database." (exc_str closed_error)).
Proof. apply (is_disconnect_spec sample_dialect sample_driver). reflexivity. Defined.

(** C8.  [dbapi] imports [pysqlite2] first and returns it when it
    loads, without trying anything else; when that import fails with
    an [ImportError] it imports [sqlite3] and returns it when it loads;
    when both imports fail with an [ImportError], the exception raised
    is the one of the [pysqlite2] import. *)
Theorem dbapi_prefers_pysqlite2 (installed : string -> import_result) :
  (forall m, installed "pysqlite2" = Loaded m ->
     dbapi installed = (["pysqlite2"], Returned m))
  /\ (forall e m,
        installed "pysqlite2" = Failed e -> isinstance e "ImportError" = true ->
        installed "sqlite3" = Loaded m ->
        dbapi installed = (["pysqlite2"; "sqlite3"], Returned m))
  /\ (forall e e',
        installed "pysqlite2" = Failed e -> isinstance e "ImportError" = true ->
        installed "sqlite3" = Failed e' -> isinstance e' "ImportError" = true ->
        dbapi installed = (["pysqlite2"; "sqlite3"], Raised e)).
Proof.
  unfold dbapi, import_dbapi2. repeat split.
  - intros m ->. reflexivity.
  - intros e m -> -> ->. reflexivity.
  - intros e e' -> -> -> ->. reflexivity.
Qed.

Lemma dbapi_prefers_pysqlite2_witness :
  dbapi only_sqlite3 = (["pysqlite2"; "sqlite3"], Returned sample_driver)
  /\ dbapi nothing_installed
     = (["pysqlite2"; "sqlite3"],
        Raised (ImportError "No module named pysqlite2")).
Proof.
  split.
  - apply (proj1 (proj2 (dbapi_prefers_pysqlite2 only_sqlite3))
             (ImportError "No module named pysqlite2")); reflexivity.
  - apply (proj2 (proj2 (dbapi_prefers_pysqlite2 nothing_installed))
             _ (ImportError "No module named sqlite3")); reflexivity.
Defined.

End DriverFacts.

(* ===================================================================== *)
(** ** __init__ *)
(* ===================================================================== *)

Module InitFacts.

Lemma int_returns_iff (s : string) :
  (exists z, int s = Returned z) <-> integer_literal s.
Proof.
  unfold int, integer_literal. destruct (int_literal s) as [z|]; split.
  - intros _. now exists z.
  - intros _. now exists z.
  - intros [z H]. discriminate.
  - intros [z H]. discriminate.
Qed.

Lemma int_raises (s : string) (e : exception) :
  int s = Raised e -> exists msg, e = ValueError msg.
Proof.
  unfold int. destruct (int_literal s); [discriminate |].
  intros H. injection H as <-. eauto.
Qed.

Lemma ints_returns_iff (l : list string) :
  (exists v, ints l = Returned v) <-> Forall integer_literal l.
Proof.
  induction l as [|x l IH]; simpl.
  - split; [constructor | intros _; now exists []].
  - split.
    + intros [v H]. destruct (int x) as [z|e] eqn:Hx; [| discriminate].
      simpl in H. destruct (ints l) as [zs|e] eqn:Hl; [| discriminate].
      constructor.
      * apply int_returns_iff. eauto.
      * apply IH. eauto.
    + intros H. apply Forall_cons in H as [Hx Hl].
      apply int_returns_iff in Hx as [z ->]. apply IH in Hl as [zs ->].
      simpl. eauto.
Qed.

Lemma ints_raises (l : list string) (e : exception) :
  ints l = Raised e -> exists msg, e = ValueError msg.
Proof.
  revert e. induction l as [|x l IH]; simpl; intros e H; [discriminate |].
  destruct (int x) as [z|e0] eqn:Hx; simpl in H.
  - destruct (ints l) as [zs|e1]; [discriminate |].
    injection H as <-. now apply IH.
  - injection H as <-. now apply int_raises in Hx.
Qed.

(** [vers] reads a version string component by component. *)
Lemma vers_spec (num : string) (v : list Z) :
  vers num = Returned v
  <-> Forall2 (fun x z => int_literal x = Some z) (split "." num) v.
Proof.
  unfold vers. generalize (split "." num) as l. intros l. revert v.
  induction l as [|x l IH]; intros v; simpl.
  - split.
    + intros H. injection H as <-. constructor.
    + intros H. now apply Forall2_nil_inv_l in H as ->.
  - unfold int at 1. destruct (int_literal x) as [z|] eqn:Hx; simpl.
    + destruct (ints l) as [zs|e] eqn:Hl; simpl.
      * split.
        -- intros H. injection H as <-. constructor; [exact Hx |].
           now apply IH.
        -- intros H. apply Forall2_cons_inv_l in H as (z' & zs' & Hz & Hzs & ->).
           apply IH in Hzs. congruence.
      * split; [discriminate |].
        intros H. apply Forall2_cons_inv_l in H as (z' & zs' & Hz & Hzs & ->).
        apply IH in Hzs. discriminate.
    + split; [discriminate |].
      intros H. apply Forall2_cons_inv_l in H as (z' & zs' & Hz & Hzs & ->).
      congruence.
Qed.

Example vers_3_6_23_1 : vers "3.6.23.1" = Returned [3; 6; 23; 1].
Proof. reflexivity. Qed.

(** A client library 2.1.5 is warned about: its third component, an
    integer, is compared with the string '3'. *)
Example init_warns_2_1_5 :
  (__init__
     {| self_dbapi :=
          Some {| version_info := [VInt 2; VInt 1; VInt 5];
                  sqlite_version_info := [3; 6; 0];
                  sqlite_version := "3.6.0";
                  ProgrammingError := "sqlite3.ProgrammingError" |};
        supports_default_values := true;
        supports_cast := true |}).1
  = ["The installed version of pysqlite2 (2.1.5) is out-dated and will cause errors in some cases.  Version 2.1.3 or greater is recommended."].
Proof. reflexivity. Qed.

Lemma vers_threshold : vers "3.2.3" = Returned [3; 2; 3].
Proof. reflexivity. Qed.

(** [__init__] with a driver whose version string is read as [v]. *)
Lemma init_with_driver (self : SQLite_pysqlite) (d : Driver) (v : list Z) :
  self_dbapi self = Some d -> vers (sqlite_version d) = Returned v ->
  (__init__ self).2
  = Returned
      (set_supports_cast (tuple_ge Z.eqb Z.ltb v [3; 2; 3])
         (if tuple_lt Z.eqb Z.ltb (sqlite_version_info d) [3; 3; 8]
          then set_supports_default_values false self else self)).
Proof.
  intros Hd Hv. unfold __init__. rewrite Hd. cbn [snd].
  rewrite Hv, vers_threshold. reflexivity.
Qed.

Lemma init_without_driver (self : SQLite_pysqlite) :
  self_dbapi self = None ->
  __init__ self = ([], Returned (set_supports_cast true self)).
Proof. intros Hd. unfold __init__. now rewrite Hd. Qed.

(** C4.  With a driver present and the flag set by the base class, the
    finished dialect has "supports default values" cleared exactly when
    the driver's engine version tuple is below (3, 3, 8): a driver
    reporting engine version 3.3.0 leaves it cleared, one reporting
    3.8.0 leaves it set. *)
Theorem init_supports_default_values (self : SQLite_pysqlite) (d : Driver) :
  self_dbapi self = Some d -> supports_default_values self = true ->
  (forall v, vers (sqlite_version d) = Returned v ->
     exists self', (__init__ self).2 = Returned self'
       /\ (supports_default_values self' = false
           <-> lex_lt (sqlite_version_info d) [3; 3; 8]))
  /\ (sqlite_version d = "3.3.0" -> sqlite_version_info d = [3; 3; 0] ->
      exists self', (__init__ self).2 = Returned self'
        /\ supports_default_values self' = false)
  /\ (sqlite_version d = "3.8.0" -> sqlite_version_info d = [3; 8; 0] ->
      exists self', (__init__ self).2 = Returned self'
        /\ supports_default_values self' = true).
Proof.
  intros Hd Hflag. repeat split.
  - intros v Hv. eexists; split; [exact (init_with_driver self d v Hd Hv) |].
    rewrite <- tuple_lt_spec.
    destruct (tuple_lt Z.eqb Z.ltb (sqlite_version_info d) [3; 3; 8]); simpl.
    + tauto.
    + rewrite Hflag. split; discriminate.
  - intros Hs Hi. eexists; split.
    + apply (init_with_driver self d [3; 3; 0] Hd). now rewrite Hs.
    + rewrite Hi. reflexivity.
  - intros Hs Hi. eexists; split.
    + apply (init_with_driver self d [3; 8; 0] Hd). now rewrite Hs.
    + rewrite Hi. exact Hflag.
Qed.

Lemma init_supports_default_values_witness :
  exists self', (__init__ sample_dialect).2 = Returned self'
    /\ supports_default_values self' = true.
Proof.
  apply (proj2 (proj2 (init_supports_default_values sample_dialect sample_driver
                         eq_refl eq_refl))); reflexivity.
Defined.

(** C5.  The finished dialect has "supports cast" set when no driver is
    present; with a driver, whose version string is split on '.' and
    read component by component as integers, it is set exactly when
    the tuple read is not below the tuple read from "3.2.3": "3.2.3"
    sets the flag and "3.2.2" clears it. *)
Theorem init_supports_cast (self : SQLite_pysqlite) :
  (self_dbapi self = None ->
     exists self', __init__ self = ([], Returned self')
       /\ supports_cast self' = true)
  /\ (forall d v, self_dbapi self = Some d ->
        vers (sqlite_version d) = Returned v ->
        exists self', (__init__ self).2 = Returned self'
          /\ (supports_cast self' = true <-> ~ lex_lt v [3; 2; 3]))
  /\ vers "3.2.3" = Returned [3; 2; 3]
  /\ (forall d, self_dbapi self = Some d -> sqlite_version d = "3.2.3" ->
        exists self', (__init__ self).2 = Returned self'
          /\ supports_cast self' = true)
  /\ (forall d, self_dbapi self = Some d -> sqlite_version d = "3.2.2" ->
        exists self', (__init__ self).2 = Returned self'
          /\ supports_cast self' = false).
Proof.
  repeat split.
  - intros Hd. eexists; split; [exact (init_without_driver self Hd) |].
    reflexivity.
  - intros d v Hd Hv. eexists; split; [exact (init_with_driver self d v Hd Hv) |].
    rewrite <- tuple_ge_spec. reflexivity.
  - intros d Hd Hs. eexists; split.
    + apply (init_with_driver self d [3; 2; 3] Hd). now rewrite Hs.
    + reflexivity.
  - intros d Hd Hs. eexists; split.
    + apply (init_with_driver self d [3; 2; 2] Hd). now rewrite Hs.
    + reflexivity.
Qed.

Lemma init_supports_cast_witness :
  (exists self', __init__ dialect_without_driver = ([], Returned self')
     /\ supports_cast self' = true)
  /\ (exists self', (__init__ dialect_3_2_3).2 = Returned self'
        /\ supports_cast self' = true).
Proof.
  split.
  - apply (proj1 (init_supports_cast dialect_without_driver)). reflexivity.
  - apply (proj1 (proj2 (proj2 (proj2 (init_supports_cast dialect_3_2_3))))
             driver_3_2_3); reflexivity.
Defined.

(** C6, as the code has it.  The construction returns a dialect
    whenever no driver is present or every component of the driver's
    engine version string, split on '.', is an integer literal; an
    out-of-date client library then only adds one warning to the log.
    When some component is not an integer literal, the construction
    ends with the [ValueError] of the conversion. *)
Theorem init_returns_iff_version_numeric (self : SQLite_pysqlite) :
  ((forall d, self_dbapi self = Some d ->
      Forall integer_literal (split "." (sqlite_version d))) ->
   exists log self', __init__ self = (log, Returned self')
     /\ (log = []
         \/ exists d, self_dbapi self = Some d
              /\ tuple_lt vcomp_eq vcomp_lt (version_info d)
                   [VInt 2; VInt 1; VStr "3"] = true
              /\ log = [outdated_warning (version_info d)]))
  /\ (forall d, self_dbapi self = Some d ->
        ~ Forall integer_literal (split "." (sqlite_version d)) ->
        exists msg, (__init__ self).2 = Raised (ValueError msg)).
Proof.
  split.
  - intros Hnum. destruct (self_dbapi self) as [d|] eqn:Hd.
    + specialize (Hnum d eq_refl). apply ints_returns_iff in Hnum as [v Hv].
      pose proof (init_with_driver self d v Hd Hv) as Hinit.
      destruct (__init__ self) as [log r] eqn:Hrun. simpl in Hinit. subst r.
      exists log. eexists. split; [reflexivity |].
      unfold __init__ in Hrun. rewrite Hd in Hrun.
      injection Hrun as Hlog _. revert Hlog.
      destruct (tuple_lt vcomp_eq vcomp_lt (version_info d) _) eqn:Hold;
        intros <-; [right | left; reflexivity].
      exists d. auto.
    + exists []. eexists. split; [exact (init_without_driver self Hd) |].
      now left.
  - intros d Hd Hbad. unfold __init__. rewrite Hd. cbn [snd].
    destruct (vers (sqlite_version d)) as [v|e] eqn:Hv.
    + destruct Hbad. apply ints_returns_iff. eauto.
    + apply ints_raises in Hv as [msg ->]. now exists msg.
Qed.

Lemma init_returns_iff_version_numeric_witness :
  exists log self', __init__ sample_dialect = (log, Returned self')
    /\ (log = []
        \/ exists d, self_dbapi sample_dialect = Some d
             /\ tuple_lt vcomp_eq vcomp_lt (version_info d)
                  [VInt 2; VInt 1; VStr "3"] = true
             /\ log = [outdated_warning (version_info d)]).
Proof.
  apply (proj1 (init_returns_iff_version_numeric sample_dialect)).
  intros d Hd. injection Hd as <-.
  change (Forall integer_literal ["3"; "8"; "0"]%string).
  repeat (apply Forall_cons; split; [eexists; reflexivity |]).
  apply Forall_nil_2.
Defined.

(** C6, as stated, fails: with a driver whose engine version string is
    "3.8.0b" the construction raises. *)
Lemma init_raises_on_version_3_8_0b :
  __init__ beta_dialect
  = ([], Raised (ValueError "invalid literal for int() with base 10: '0b'"))
  /\ ~ (forall self, exists log self', __init__ self = (log, Returned self')).
Proof.
  split; [reflexivity |].
  intros H. destruct (H beta_dialect) as (log & self' & Hrun).
  vm_compute in Hrun. discriminate.
Qed.

End InitFacts.

(* ===================================================================== *)
(** ** create_connect_args *)
(* ===================================================================== *)

Module ConnectFacts.

Lemma truthy_str_spec (o : option string) :
  truthy_str o = true <-> nonempty_text o.
Proof.
  unfold nonempty_text. destruct o as [[|c s]|]; simpl; split.
  - discriminate.
  - intros (s & H & Hne). injection H as <-. congruence.
  - intros _. eexists; split; [reflexivity | discriminate].
  - reflexivity.
  - discriminate.
  - intros (s & H & _). discriminate.
Qed.

Lemma truthy_int_spec (o : option Z) :
  truthy_int o = true <-> nonempty_port o.
Proof.
  unfold nonempty_port. destruct o as [p|]; simpl.
  - rewrite negb_true_iff, Z.eqb_neq. split.
    + intros Hp. now exists p.
    + intros (p' & H & Hp). injection H as <-. exact Hp.
  - split; [discriminate | intros (p & H & _); discriminate].
Qed.

Lemma url_check_spec (url : URL) :
  truthy_str (username url) || truthy_str (password url)
  || truthy_str (host url) || truthy_int (port url) = true
  <-> has_credentials_or_address url.
Proof.
  unfold has_credentials_or_address.
  rewrite !orb_true_iff, !truthy_str_spec, truthy_int_spec. tauto.
Qed.

Lemma filename_spec (url : URL) :
  (if truthy_str (database url)
   then default ":memory:"%string (database url) else ":memory:"%string)
  = filename_of url.
Proof. unfold filename_of. now destruct (database url) as [[|c s]|]. Qed.

Lemma declared_type_elem (opts : list (string * pytype)) (k : string) (t : pytype) :
  declared_type opts k = Some t -> (k, t) ∈ opts.
Proof.
  induction opts as [|[k0 t0] r IH]; simpl; [discriminate |].
  destruct (String.eqb_spec k0 k) as [->|Hne].
  - intros H. injection H as ->. apply list_elem_of_here.
  - intros H. apply list_elem_of_further. auto.
Qed.

Lemma declared_type_None (opts : list (string * pytype)) (k : string) :
  declared_type opts k = None <-> k ∉ opts.*1.
Proof.
  induction opts as [|[k0 t0] r IH]; simpl.
  - split; [intros _; apply not_elem_of_nil | reflexivity].
  - rewrite not_elem_of_cons. destruct (String.eqb_spec k0 k) as [->|Hne].
    + split; [discriminate | intros [H _]; congruence].
    + rewrite IH. split; [intros H; split; [intros ->; now apply Hne | exact H] | tauto].
Qed.

Section with_environment.
Variable float_literal : string -> option float.
Variable URL_str : URL -> heap -> string.

Abbreviation convert := (Util.convert float_literal).
Abbreviation coerce_kw_type := (Util.coerce_kw_type float_literal).
Abbreviation coerce_one := (Props.coerce_one float_literal).
Abbreviation coerce_all := (Props.coerce_all float_literal).
Abbreviation coerce_seq := (Props.coerce_seq float_literal).
Abbreviation convertible := (Props.convertible float_literal).
Abbreviation create_connect_args := (Dialect.create_connect_args float_literal URL_str).

(** *** Conversions *)

Lemma convert_raises t s e :
  convert t s = Raised e -> exists msg, e = ValueError msg.
Proof.
  destruct t; simpl.
  - unfold Util.float_of_str. destruct (float_literal s); simpl; [discriminate |].
    intros H. injection H as <-. eauto.
  - discriminate.
  - destruct (int s) as [z|e0] eqn:Hi; simpl; [discriminate |].
    intros H. injection H as <-. now apply InitFacts.int_raises in Hi.
  - unfold Util.asbool. repeat case_bool_decide; simpl; try discriminate.
    intros Hraise. injection Hraise as <-. eauto.
Qed.

Lemma convert_has_type t s v :
  convert t s = Returned v -> has_type t v = true.
Proof.
  destruct t; simpl.
  - destruct (Util.float_of_str float_literal s); simpl; [| discriminate].
    intros H. now injection H as <-.
  - intros H. now injection H as <-.
  - destruct (int s); simpl; [| discriminate]. intros H. now injection H as <-.
  - destruct (Util.asbool s); simpl; [| discriminate].
    intros H. now injection H as <-.
Qed.

(** *** Coercion on the entries of a dictionary *)

Lemma coerce_one_raises k t d e :
  coerce_one k t d = Raised e -> exists msg, e = ValueError msg.
Proof.
  unfold Props.coerce_one. destruct (d !! k) as [[| | | |s]|]; try discriminate.
  destruct (convert t s) as [v|e0] eqn:Hc; simpl; [discriminate |].
  intros H. injection H as <-. now apply convert_raises in Hc.
Qed.

Lemma coerce_all_raises opts d e :
  coerce_all opts d = Raised e -> exists msg, e = ValueError msg.
Proof.
  revert d. induction opts as [|[k t] r IH]; simpl; intros d; [discriminate |].
  destruct (coerce_one k t d) as [d1|e1] eqn:H1; simpl.
  - apply IH.
  - intros H. injection H as <-. now apply coerce_one_raises in H1.
Qed.

(** The entry under the coerced key, and the other entries. *)
Lemma coerce_one_lookup k t d d' :
  coerce_one k t d = Returned d' ->
  (forall k', k' <> k -> d' !! k' = d !! k')
  /\ match d !! k with
     | Some (PStr s) => exists v, convert t s = Returned v /\ d' !! k = Some v
     | other => d' !! k = other
     end.
Proof.
  unfold Props.coerce_one.
  destruct (d !! k) as [[| | | |s]|] eqn:Hk;
    try (intros H; injection H as <-; split; [reflexivity | exact Hk]).
  destruct (convert t s) as [v|e0]; simpl; [| discriminate].
  intros H. injection H as <-. split.
  - intros k' Hne. now rewrite lookup_insert_ne.
  - exists v. now rewrite lookup_insert_eq.
Qed.

(** With distinct keys, every entry of the coerced dictionary is the
    original entry, converted when its key has a declared type and
    its value is a string. *)
Lemma coerce_all_lookup opts d d' :
  NoDup opts.*1 -> coerce_all opts d = Returned d' ->
  forall k,
    match d !! k, declared_type opts k with
    | Some (PStr s), Some t =>
        exists v, convert t s = Returned v /\ d' !! k = Some v
    | other, _ => d' !! k = other
    end.
Proof.
  revert d. induction opts as [|[k0 t0] r IH]; simpl; intros d Hnd Hrun k.
  - injection Hrun as <-. now destruct (d !! k) as [[| | | |s]|].
  - apply NoDup_cons in Hnd as [Hfresh Hnd].
    destruct (coerce_one k0 t0 d) as [d1|e1] eqn:H1; simpl in Hrun;
      [| discriminate].
    apply coerce_one_lookup in H1 as [Hother Hsame].
    specialize (IH d1 Hnd Hrun k).
    destruct (String.eqb_spec k0 k) as [->|Hne].
    + apply declared_type_None in Hfresh. rewrite Hfresh in IH.
      destruct (d !! k) as [[| | | |s]|] eqn:Hk.
      1-4, 6: rewrite Hsame in IH; exact IH.
      destruct Hsame as (v & Hv & Hd1). exists v. split; [exact Hv |].
      rewrite Hd1 in IH. now destruct v.
    + rewrite (Hother k) in IH by congruence. exact IH.
Qed.

Lemma coerce_all_returns opts d :
  NoDup opts.*1 ->
  (forall k t s, (k, t) ∈ opts -> d !! k = Some (PStr s) ->
     exists v, convert t s = Returned v) ->
  exists d', coerce_all opts d = Returned d'.
Proof.
  revert d. induction opts as [|[k0 t0] r IH]; simpl; intros d Hnd Hconv.
  - eauto.
  - apply NoDup_cons in Hnd as [Hfresh Hnd].
    assert (exists d1, coerce_one k0 t0 d = Returned d1) as [d1 H1].
    { unfold Props.coerce_one. destruct (d !! k0) as [[| | | |s]|] eqn:Hk; eauto.
      destruct (Hconv k0 t0 s) as [v ->]; [apply list_elem_of_here | exact Hk |].
      simpl. eauto. }
    rewrite H1. simpl. apply IH; [exact Hnd |].
    intros k t s Hin Hk. apply (Hconv k t s); [now apply list_elem_of_further |].
    apply coerce_one_lookup in H1 as [Hother _].
    rewrite <- Hother; [exact Hk |].
    intros ->. apply Hfresh. apply list_elem_of_fmap. now exists (k0, t).
Qed.

Lemma option_types_NoDup : NoDup option_types.*1.
Proof. apply (bool_decide_unpack _). vm_compute. exact I. Qed.

(** *** Coercion on a dictionary in the store *)

Lemma coerce_kw_type_run (h : heap) (l : loc) (d : dict) k t :
  h !! l = Some d ->
  coerce_kw_type l k t h
  = match coerce_one k t d with
    | Returned d' => Some (<[l := d']> h, Returned tt)
    | Raised e => Some (h, Raised e)
    end.
Proof.
  intros Hl. unfold Util.coerce_kw_type, Props.coerce_one, bind, load.
  rewrite Hl. destruct (d !! k) as [[| | | |s]|];
    try (unfold ret; now rewrite (insert_id h l d Hl)).
  unfold lift. destruct (convert t s) as [v|e]; simpl; [| reflexivity].
  unfold store. now rewrite Hl.
Qed.

(** The calls leave the store as it was except for the dictionary
    they work on, which ends as the coerced dictionary when no
    conversion fails. *)
Lemma coerce_seq_run (l : loc) opts (h : heap) (d : dict) :
  h !! l = Some d ->
  exists d1,
    coerce_seq l opts h
    = Some (<[l := d1]> h,
            match coerce_all opts d with
            | Returned _ => Returned tt
            | Raised e => Raised e
            end)
    /\ forall d', coerce_all opts d = Returned d' -> d1 = d'.
Proof.
  revert h d. induction opts as [|[k t] r IH]; intros h d Hl; simpl.
  - exists d. unfold ret. rewrite (insert_id h l d Hl).
    split; [reflexivity | congruence].
  - unfold bind. rewrite (coerce_kw_type_run h l d k t Hl).
    destruct (coerce_one k t d) as [d0|e]; simpl.
    + destruct (IH (<[l := d0]> h) d0) as (d1 & Hrun & Hd1);
        [apply lookup_insert_eq |].
      exists d1. rewrite Hrun, insert_insert_eq. split; [reflexivity | exact Hd1].
    + exists d. rewrite (insert_id h l d Hl). split; [reflexivity | discriminate].
Qed.

(** *** The whole operation *)

Lemma create_connect_args_rejected (url : URL) (h : heap) :
  has_credentials_or_address url ->
  create_connect_args url h
  = Some (h, Raised (ArgumentError (invalid_url_message (URL_str url h)))).
Proof.
  intros Hbad. apply url_check_spec in Hbad.
  unfold Dialect.create_connect_args. now rewrite Hbad.
Qed.

Lemma create_connect_args_steps (url : URL) (h : heap) :
  ~ has_credentials_or_address url ->
  create_connect_args url h
  = (opts <- copy (query url);;
     coerce_seq opts option_types;;;
     ret ([PStr (filename_of url)], opts)) h.
Proof.
  intros Hok. rewrite <- url_check_spec in Hok.
  apply not_true_is_false in Hok.
  unfold Dialect.create_connect_args. rewrite Hok, filename_spec.
  unfold option_types. cbn [Props.coerce_seq]. unfold bind.
  destruct (copy (query url) h) as [[h0 [opts|e]]|]; try reflexivity.
  repeat match goal with
         | |- context [Util.coerce_kw_type _ ?l ?k ?t ?h] =>
             destruct (Util.coerce_kw_type float_literal l k t h)
               as [[? [[]|?]]|]; try reflexivity
         end.
Qed.

(** On a URL that passes the check, the operation copies the query
    dictionary to a new reference and ends as the coercion of its
    entries does. *)
Lemma create_connect_args_run (url : URL) (h : heap) (q : dict) :
  ~ has_credentials_or_address url -> h !! query url = Some q ->
  exists d1,
    create_connect_args url h
    = Some (<[fresh (dom h) := d1]> h,
            match coerce_all option_types q with
            | Returned _ => Returned ([PStr (filename_of url)], fresh (dom h))
            | Raised e => Raised e
            end)
    /\ forall d', coerce_all option_types q = Returned d' -> d1 = d'.
Proof.
  intros Hok Hq. rewrite (create_connect_args_steps url h Hok).
  unfold bind at 1. unfold copy. rewrite Hq.
  set (l := fresh (dom h)).
  destruct (coerce_seq_run l option_types (<[l := q]> h) q) as (d1 & Hrun & Hd1);
    [apply lookup_insert_eq |].
  exists d1. split; [| exact Hd1].
  unfold bind. rewrite Hrun, insert_insert_eq.
  now destruct (coerce_all option_types q).
Qed.

Lemma fresh_loc_unused (h : heap) (l : loc) :
  is_Some (h !! l) -> fresh (dom h) <> l.
Proof.
  intros Hl Heq. apply elem_of_dom in Hl. rewrite <- Heq in Hl.
  now apply is_fresh in Hl.
Qed.

Lemma create_connect_args_dangling (url : URL) (h : heap) :
  ~ has_credentials_or_address url -> h !! query url = None ->
  create_connect_args url h = None.
Proof.
  intros Hok Hq. rewrite (create_connect_args_steps url h Hok).
  unfold bind at 1. unfold copy. now rewrite Hq.
Qed.

Lemma includes_trans (a b c : string) :
  includes a b -> includes b c -> includes a c.
Proof.
  intros (p1 & q1 & ->) (p2 & q2 & ->). exists (p2 +:+ p1), (q1 +:+ q2).
  now rewrite !append_assoc.
Qed.

Lemma message_includes_url (u : string) : includes u (invalid_url_message u).
Proof. unfold invalid_url_message. apply includes_middle. Qed.

Lemma message_includes_forms (u : string) :
  includes "sqlite:///:memory:" (invalid_url_message u)
  /\ includes "sqlite:///relative/path/to/file.db" (invalid_url_message u)
  /\ includes "sqlite:////absolute/path/to/file.db" (invalid_url_message u).
Proof.
  unfold invalid_url_message. repeat split.
  - apply (includes_trans _ memory_form).
    + now exists " "%string, " (or, sqlite://)"%string.
    + exists ("Invalid SQLite URL: " +:+ u +:+ nl
              +:+ "Valid SQLite URL forms are:" +:+ nl),
             (nl +:+ relative_form +:+ nl +:+ absolute_form).
      now rewrite !append_assoc.
  - apply (includes_trans _ relative_form).
    + now exists " "%string, EmptyString.
    + exists ("Invalid SQLite URL: " +:+ u +:+ nl
              +:+ "Valid SQLite URL forms are:" +:+ nl +:+ memory_form +:+ nl),
             (nl +:+ absolute_form).
      now rewrite !append_assoc.
  - apply (includes_trans _ absolute_form).
    + now exists " "%string, EmptyString.
    + exists ("Invalid SQLite URL: " +:+ u +:+ nl
              +:+ "Valid SQLite URL forms are:" +:+ nl +:+ memory_form +:+ nl
              +:+ relative_form +:+ nl),
             EmptyString.
      rewrite !append_assoc. repeat f_equal.
Qed.

(** C1.  When the username, the password or the host of the URL is a
    non-empty text, or its port is a non-zero number,
    [create_connect_args] raises [ArgumentError] with a message that
    contains the text of the URL and the three accepted forms; when
    none is, whatever it raises is not an [ArgumentError]. *)
Theorem create_connect_args_rejects (url : URL) (h : heap) :
  (has_credentials_or_address url ->
     exists msg,
       create_connect_args url h = Some (h, Raised (ArgumentError msg))
       /\ includes (URL_str url h) msg
       /\ includes "sqlite:///:memory:" msg
       /\ includes "sqlite:///relative/path/to/file.db" msg
       /\ includes "sqlite:////absolute/path/to/file.db" msg)
  /\ (~ has_credentials_or_address url ->
        forall h' e, create_connect_args url h = Some (h', Raised e) ->
          isinstance e "ArgumentError" = false).
Proof.
  split.
  - intros Hbad. exists (invalid_url_message (URL_str url h)).
    split; [exact (create_connect_args_rejected url h Hbad) |].
    split; [apply message_includes_url | apply message_includes_forms].
  - intros Hok h' e Hrun. destruct (h !! query url) as [q|] eqn:Hq.
    + destruct (create_connect_args_run url h q Hok Hq) as (d1 & Hrun' & _).
      rewrite Hrun' in Hrun.
      destruct (coerce_all option_types q) as [d'|e'] eqn:Hc; [discriminate |].
      injection Hrun as _ <-.
      apply coerce_all_raises in Hc as [msg ->]. reflexivity.
    + rewrite (create_connect_args_dangling url h Hok Hq) in Hrun. discriminate.
Qed.

(** C2.  On a URL without credentials and address,
    [create_connect_args] returns exactly one positional argument
    when the recognised options can be converted, and whenever it
    returns: ':memory:' when the database part of the URL is empty,
    otherwise the database part as it is.  An empty database part and
    the database part ':memory:' give the same argument. *)
Theorem create_connect_args_positional (url : URL) (h : heap) (q : dict) :
  ~ has_credentials_or_address url -> h !! query url = Some q ->
  (convertible q ->
     exists h' opts,
       create_connect_args url h
       = Some (h', Returned ([PStr (filename_of url)], opts)))
  /\ (forall h' args opts,
        create_connect_args url h = Some (h', Returned (args, opts)) ->
        args = [PStr (filename_of url)])
  /\ (database url = None \/ database url = Some EmptyString
        \/ database url = Some ":memory:"%string ->
      filename_of url = ":memory:"%string)
  /\ (forall path, database url = Some path -> path <> EmptyString ->
        filename_of url = path).
Proof.
  intros Hok Hq.
  destruct (create_connect_args_run url h q Hok Hq) as (d1 & Hrun & _).
  repeat split.
  - intros Hconv.
    destruct (coerce_all_returns option_types q option_types_NoDup Hconv)
      as [d' Hd'].
    rewrite Hd' in Hrun. eauto.
  - intros h' args opts Hret. rewrite Hrun in Hret.
    destruct (coerce_all option_types q); [| discriminate].
    now injection Hret as _ <- _.
  - unfold filename_of. intros [-> | [-> | ->]]; reflexivity.
  - unfold filename_of. intros path -> Hne. now destruct path.
Qed.

(** C3.  On a URL without credentials and address whose recognised
    options can be converted, the keyword dictionary returned holds,
    for each of the five recognised keys present with a string value,
    the value converted to the declared type of the key; a key absent
    from the query is absent from it, and an entry under another key
    is the entry of the query.  'false' under check_same_thread gives
    [False]; 'true' and '1' give [True]. *)
Theorem create_connect_args_coerces (url : URL) (h : heap) (q : dict) :
  ~ has_credentials_or_address url -> h !! query url = Some q ->
  convertible q ->
  option_types
  = [("timeout", Tfloat); ("isolation_level", Tstr); ("detect_types", Tint);
     ("check_same_thread", Tbool); ("cached_statements", Tint)]%string
  /\ exists h' args l opts,
    create_connect_args url h = Some (h', Returned (args, l))
    /\ h' !! l = Some opts
    /\ (forall k t s,
          declared_type option_types k = Some t -> q !! k = Some (PStr s) ->
          exists v, convert t s = Returned v /\ has_type t v = true
                    /\ opts !! k = Some v)
    /\ (forall k, q !! k = None -> opts !! k = None)
    /\ (forall k, declared_type option_types k = None -> opts !! k = q !! k)
    /\ (q !! "check_same_thread"%string = Some (PStr "false") ->
        opts !! "check_same_thread"%string = Some (PBool false))
    /\ (q !! "check_same_thread"%string = Some (PStr "true")
        \/ q !! "check_same_thread"%string = Some (PStr "1") ->
        opts !! "check_same_thread"%string = Some (PBool true)).
Proof.
  intros Hok Hq Hconv. split; [reflexivity |].
  destruct (create_connect_args_run url h q Hok Hq) as (d1 & Hrun & Hd1).
  destruct (coerce_all_returns option_types q option_types_NoDup Hconv)
    as [opts Hopts].
  rewrite Hopts in Hrun. rewrite (Hd1 opts Hopts) in Hrun.
  pose proof (coerce_all_lookup option_types q opts option_types_NoDup Hopts)
    as Hlook.
  assert (Hkey : forall k t s,
             declared_type option_types k = Some t -> q !! k = Some (PStr s) ->
             exists v, convert t s = Returned v /\ opts !! k = Some v).
  { intros k t s Ht Hk. specialize (Hlook k). now rewrite Hk, Ht in Hlook. }
  exists (<[fresh (dom h) := opts]> h), [PStr (filename_of url)],
         (fresh (dom h)), opts.
  split; [exact Hrun |]. split; [apply lookup_insert_eq |]. repeat split.
  - intros k t s Ht Hk. destruct (Hkey k t s Ht Hk) as (v & Hv & Hov).
    exists v. split; [exact Hv |]. split; [| exact Hov].
    now apply convert_has_type in Hv.
  - intros k Hk. specialize (Hlook k). now rewrite Hk in Hlook.
  - intros k Ht. specialize (Hlook k). rewrite Ht in Hlook.
    now destruct (q !! k) as [[| | | |s]|].
  - intros Hk. destruct (Hkey "check_same_thread"%string Tbool _ eq_refl Hk) as (v & Hv & ->).
    vm_compute in Hv. congruence.
  - intros [Hk | Hk]; destruct (Hkey "check_same_thread"%string Tbool _ eq_refl Hk) as (v & Hv & ->);
      vm_compute in Hv; congruence.
Qed.

(** C9.  Two calls of [create_connect_args] on the same URL, one
    after the other, end the same way: they return the same
    positional arguments with keyword dictionaries that have the same
    entries, or raise the same exception.  The query dictionary of
    the URL, and every other dictionary that was in the store, has
    the entries it had before: the coercions work on a copy. *)
Theorem create_connect_args_pure (url : URL) (h : heap) (q : dict) :
  h !! query url = Some q ->
  exists h1 r1 h2 r2,
    create_connect_args url h = Some (h1, r1)
    /\ create_connect_args url h1 = Some (h2, r2)
    /\ observe h1 r1 = observe h2 r2
    /\ h1 !! query url = Some q /\ h2 !! query url = Some q
    /\ (forall l, is_Some (h !! l) -> h1 !! l = h !! l /\ h2 !! l = h !! l)
    /\ (forall args l, r1 = Returned (args, l) -> h !! l = None).
Proof.
  intros Hq.
  destruct (url_check_spec url) as [Hdec _].
  destruct (truthy_str (username url) || truthy_str (password url)
            || truthy_str (host url) || truthy_int (port url)) eqn:Hcheck.
  - specialize (Hdec eq_refl).
    exists h, (Raised (ArgumentError (invalid_url_message (URL_str url h)))),
           h, (Raised (ArgumentError (invalid_url_message (URL_str url h)))).
    rewrite (create_connect_args_rejected url h Hdec).
    repeat split; auto; discriminate.
  - assert (Hok : ~ has_credentials_or_address url).
    { intros Hbad. apply url_check_spec in Hbad. congruence. }
    destruct (create_connect_args_run url h q Hok Hq) as (d1 & Hrun1 & Hd1).
    set (l1 := fresh (dom h)) in *. set (h1 := <[l1 := d1]> h) in *.
    assert (Hl1 : forall l, is_Some (h !! l) -> h1 !! l = h !! l).
    { intros l Hl. unfold h1. apply lookup_insert_ne.
      now apply fresh_loc_unused. }
    assert (Hq1 : h1 !! query url = Some q).
    { rewrite Hl1; [exact Hq | now rewrite Hq]. }
    destruct (create_connect_args_run url h1 q Hok Hq1) as (d2 & Hrun2 & Hd2).
    set (l2 := fresh (dom h1)) in *. set (h2 := <[l2 := d2]> h1) in *.
    assert (Hl2 : forall l, is_Some (h !! l) -> h2 !! l = h !! l).
    { intros l Hl. unfold h2. rewrite lookup_insert_ne.
      - now apply Hl1.
      - apply fresh_loc_unused. now rewrite Hl1. }
    eexists h1, _, h2, _. split; [exact Hrun1 |]. split; [exact Hrun2 |].
    repeat split.
    + destruct (coerce_all option_types q) as [d'|e] eqn:Hc; simpl.
      * unfold h1, h2. rewrite !lookup_insert_eq.
        now rewrite (Hd1 d' eq_refl), (Hd2 d' eq_refl).
      * reflexivity.
    + exact Hq1.
    + rewrite Hl2; [exact Hq | now rewrite Hq].
    + now apply Hl1.
    + now apply Hl2.
    + intros args l Hret.
      destruct (coerce_all option_types q); [| discriminate].
      injection Hret as _ <-. apply not_elem_of_dom. apply is_fresh.
Qed.

End with_environment.

Lemma file_url_accepted : ~ has_credentials_or_address file_url.
Proof. rewrite <- url_check_spec. simpl. discriminate. Qed.

Lemma sample_query_convertible : convertible sample_float_literal sample_query.
Proof.
  intros k t s Hin Hk. unfold option_types in Hin.
  repeat (apply elem_of_cons in Hin as [Heq | Hin];
          [injection Heq as -> ->; vm_compute in Hk;
           try discriminate; injection Hk as <-; eexists; vm_compute; reflexivity |]).
  now apply elem_of_nil in Hin.
Qed.

Lemma create_connect_args_rejects_witness :
  (exists msg,
     create_connect_args sample_float_literal sample_URL_str host_url sample_heap
     = Some (sample_heap, Raised (ArgumentError msg))
     /\ includes (sample_URL_str host_url sample_heap) msg
     /\ includes "sqlite:///:memory:" msg
     /\ includes "sqlite:///relative/path/to/file.db" msg
     /\ includes "sqlite:////absolute/path/to/file.db" msg)
  /\ (forall h' e,
        create_connect_args sample_float_literal sample_URL_str file_url sample_heap
        = Some (h', Raised e) ->
        isinstance e "ArgumentError" = false).
Proof.
  split.
  - apply (proj1 (create_connect_args_rejects sample_float_literal sample_URL_str
                    host_url sample_heap)).
    right. right. left. exists "localhost"%string.
    split; [reflexivity | discriminate].
  - apply (proj2 (create_connect_args_rejects sample_float_literal sample_URL_str
                    file_url sample_heap)).
    rewrite <- url_check_spec. simpl. discriminate.
Defined.

Lemma create_connect_args_positional_witness :
  exists h' opts,
    create_connect_args sample_float_literal sample_URL_str file_url sample_heap
    = Some (h', Returned ([PStr "/a/b.db"], opts)).
Proof.
  apply (proj1 (create_connect_args_positional sample_float_literal sample_URL_str
                  file_url sample_heap sample_query
                  file_url_accepted eq_refl)).
  exact sample_query_convertible.
Defined.

Lemma create_connect_args_coerces_witness :
  exists h' args l opts,
    create_connect_args sample_float_literal sample_URL_str file_url sample_heap
    = Some (h', Returned (args, l))
    /\ h' !! l = Some opts
    /\ opts !! "check_same_thread"%string = Some (PBool false).
Proof.
  destruct (create_connect_args_coerces sample_float_literal sample_URL_str
              file_url sample_heap sample_query
              file_url_accepted eq_refl sample_query_convertible)
    as (_ & h' & args & l & opts & Hrun & Hl & _ & _ & _ & Hfalse & _).
  exists h', args, l, opts. split; [exact Hrun |]. split; [exact Hl |].
  apply Hfalse. reflexivity.
Defined.

Lemma create_connect_args_pure_witness :
  exists h1 r1 h2 r2,
    create_connect_args sample_float_literal sample_URL_str file_url sample_heap
    = Some (h1, r1)
    /\ create_connect_args sample_float_literal sample_URL_str file_url h1
       = Some (h2, r2)
    /\ observe h1 r1 = observe h2 r2
    /\ h1 !! query file_url = Some sample_query
    /\ h2 !! query file_url = Some sample_query
    /\ (forall l, is_Some (sample_heap !! l) ->
          h1 !! l = sample_heap !! l /\ h2 !! l = sample_heap !! l)
    /\ (forall args l, r1 = Returned (args, l) -> sample_heap !! l = None).
Proof.
  apply (create_connect_args_pure sample_float_literal sample_URL_str
           file_url sample_heap sample_query).
  reflexivity.
Defined.

(** The sample URL on the sample store: the path is handed on as it
    is, the three recognised options present are converted, the
    unknown option is kept, and the query dictionary of the URL still
    holds the strings. *)
Example create_connect_args_sample :
  match create_connect_args sample_float_literal sample_URL_str file_url sample_heap with
  | Some (h', Returned (args, l)) =>
      args = [PStr "/a/b.db"]
      /\ (h' !! l) ≫= (fun d => d !! "timeout"%string) = Some (PFloat 2.5)
      /\ (h' !! l) ≫= (fun d => d !! "check_same_thread"%string) = Some (PBool false)
      /\ (h' !! l) ≫= (fun d => d !! "detect_types"%string) = Some (PInt 1)
      /\ (h' !! l) ≫= (fun d => d !! "mode"%string) = Some (PStr "ro")
      /\ size <$> h' !! l = Some 4%nat
      /\ (h' !! query file_url) ≫= (fun d => d !! "timeout"%string)
         = Some (PStr "2.5")
  | _ => False
  end.
Proof. vm_compute. repeat split. Qed.

(** A port of 0 counts as no port. *)
Example create_connect_args_port_zero :
  match
    create_connect_args sample_float_literal sample_URL_str
      {| drivername := "sqlite"; username := None; password := None;
         host := Some EmptyString; port := Some 0;
         database := None; query := 1%positive |} sample_heap
  with
  | Some (_, Returned (args, _)) => args = [PStr ":memory:"]
  | _ => False
  end.
Proof. vm_compute. reflexivity. Qed.

End ConnectFacts.

(* ===================================================================== *)
(** ** More on post_exec *)
(* ===================================================================== *)

Module ExecutionContextLaws.
Import ExecutionContext.

(** X1.  Running [post_exec] a second time changes nothing. *)
Theorem post_exec_idempotent (self : SQLite_pysqliteExecutionContext) :
  post_exec (post_exec self) = post_exec self.
Proof.
  destruct self as [ins many ids rowid]. unfold post_exec; simpl.
  destruct ins, many; simpl; try reflexivity.
  destruct ids as [|x ids]; simpl.
  - now destruct (is_None rowid).
  - destruct (is_None x) eqn:Hx; simpl.
    + now destruct (is_None rowid).
    + now rewrite Hx.
Qed.

(** X2.  [post_exec] keeps the two flags and the cursor, never shortens
    the list of ids and keeps the length of a list that is not empty;
    after an insert that is not an executemany the list is not
    empty. *)
Theorem post_exec_length (self : SQLite_pysqliteExecutionContext) :
  isinsert (post_exec self) = isinsert self
  /\ executemany (post_exec self) = executemany self
  /\ cursor_lastrowid (post_exec self) = cursor_lastrowid self
  /\ (_last_inserted_ids self <> [] ->
      length (_last_inserted_ids (post_exec self))
      = length (_last_inserted_ids self))
  /\ (isinsert self = true -> executemany self = false ->
      length (_last_inserted_ids (post_exec self))
      = Nat.max 1 (length (_last_inserted_ids self))).
Proof.
  destruct self as [ins many ids rowid]. unfold post_exec; simpl.
  destruct ins, many, ids as [|x ids]; simpl;
    try destruct (is_None x); simpl;
    repeat split; intros; try reflexivity; congruence.
Qed.

Lemma post_exec_length_witness :
  length (_last_inserted_ids (post_exec sample_context)) = 3%nat.
Proof.
  apply (proj1 (proj2 (proj2 (proj2 (post_exec_length sample_context))))).
  discriminate.
Defined.

(** X3.  After an insert that is not an executemany the list of ids
    has a first element, and that element is [None] only when the
    cursor has no last row id. *)
Theorem post_exec_first_id (self : SQLite_pysqliteExecutionContext) :
  isinsert self = true -> executemany self = false ->
  exists x, head (_last_inserted_ids (post_exec self)) = Some x
    /\ (x = PNone -> cursor_lastrowid self = PNone).
Proof.
  destruct self as [ins many ids rowid]. simpl. intros -> ->.
  unfold post_exec; simpl. destruct ids as [|x ids]; simpl.
  - now exists rowid.
  - destruct (is_None x) eqn:Hx; simpl.
    + now exists rowid.
    + exists x. split; [reflexivity |]. intros ->. discriminate.
Qed.

Lemma post_exec_first_id_witness :
  exists x, head (_last_inserted_ids (post_exec sample_context)) = Some x
    /\ (x = PNone -> cursor_lastrowid sample_context = PNone).
Proof. apply (post_exec_first_id sample_context); reflexivity. Defined.

End ExecutionContextLaws.

(* ===================================================================== *)
(** ** More on dbapi *)
(* ===================================================================== *)

Module LoaderLaws.

(** X4.  An import that fails with something else than an
    [ImportError] ends [dbapi] with that exception: the one of
    [pysqlite2] without [sqlite3] being tried, the one of [sqlite3] in
    place of the [ImportError] of [pysqlite2]. *)
Theorem dbapi_other_failures (installed : string -> import_result) :
  (forall e, installed "pysqlite2" = Failed e ->
     isinstance e "ImportError" = false ->
     dbapi installed = (["pysqlite2"], Raised e))
  /\ (forall e e',
        installed "pysqlite2" = Failed e -> isinstance e "ImportError" = true ->
        installed "sqlite3" = Failed e' -> isinstance e' "ImportError" = false ->
        dbapi installed = (["pysqlite2"; "sqlite3"], Raised e')).
Proof.
  unfold dbapi, import_dbapi2. split.
  - intros e -> ->. reflexivity.
  - intros e e' -> -> -> ->. reflexivity.
Qed.

Lemma dbapi_other_failures_witness :
  dbapi broken_pysqlite2 = (["pysqlite2"], Raised broken_extension)
  /\ dbapi broken_sqlite3 = (["pysqlite2"; "sqlite3"], Raised broken_extension).
Proof.
  split.
  - apply (proj1 (dbapi_other_failures broken_pysqlite2)); reflexivity.
  - apply (proj2 (dbapi_other_failures broken_sqlite3)
             (ImportError "No module named pysqlite2")); reflexivity.
Defined.

(** X5.  Whatever is installed, [dbapi] imports [pysqlite2] alone or
    [pysqlite2] and then [sqlite3], the second only after an
    [ImportError] of the first; a module it returns is the one the
    last import loaded, and an exception it raises is one that an
    import of the two raised. *)
Theorem dbapi_sound (installed : string -> import_result)
    (tried : list string) (r : outcome Driver) :
  dbapi installed = (tried, r) ->
  (tried = ["pysqlite2"]%string \/ tried = ["pysqlite2"; "sqlite3"]%string)
  /\ (tried = ["pysqlite2"; "sqlite3"]%string ->
      exists e, installed "pysqlite2" = Failed e
                /\ isinstance e "ImportError" = true)
  /\ (forall m, r = Returned m ->
        exists name, last tried = Some name /\ installed name = Loaded m)
  /\ (forall e, r = Raised e ->
        installed "pysqlite2" = Failed e \/ installed "sqlite3" = Failed e).
Proof.
  unfold dbapi, import_dbapi2. simpl.
  destruct (installed "pysqlite2") as [m|e] eqn:H1.
  - intros H. injection H as <- <-. repeat split; auto.
    + discriminate.
    + intros m' H. injection H as <-. now exists "pysqlite2"%string.
    + discriminate.
  - destruct (isinstance e "ImportError") eqn:He.
    + destruct (installed "sqlite3") as [m|e'] eqn:H2.
      * intros H. injection H as <- <-. repeat split; eauto.
        -- intros m' H. injection H as <-. now exists "sqlite3"%string.
        -- discriminate.
      * destruct (isinstance e' "ImportError");
          intros H; injection H as <- <-; repeat split; eauto;
          try discriminate; intros e0 H; injection H as <-; auto.
    + intros H. injection H as <- <-. repeat split; auto; try discriminate.
      intros e0 H. injection H as <-. auto.
Qed.

Lemma dbapi_sound_witness :
  (["pysqlite2"; "sqlite3"]%string = ["pysqlite2"]%string
   \/ ["pysqlite2"; "sqlite3"]%string = ["pysqlite2"; "sqlite3"]%string)
  /\ exists name, last ["pysqlite2"; "sqlite3"]%string = Some name
                  /\ only_sqlite3 name = Loaded sample_driver.
Proof.
  destruct (dbapi_sound only_sqlite3 ["pysqlite2"; "sqlite3"]%string
              (Returned sample_driver) eq_refl) as (Htried & _ & Hret & _).
  split; [exact Htried | exact (Hret sample_driver eq_refl)].
Defined.

End LoaderLaws.

(* ===================================================================== *)
(** ** More on __init__ and the methods that read the driver *)
(* ===================================================================== *)

Module InitLaws.

(** X6.  A construction that returns keeps the driver handle and never
    sets "supports default values"; without a driver it keeps that
    flag as it was and emits no warning. *)
Theorem init_frame (self self' : SQLite_pysqlite) (log : list string) :
  __init__ self = (log, Returned self') ->
  self_dbapi self' = self_dbapi self
  /\ (supports_default_values self' = true -> supports_default_values self = true)
  /\ (self_dbapi self = None ->
      supports_default_values self' = supports_default_values self /\ log = []).
Proof.
  intros Hrun. destruct (self_dbapi self) as [d|] eqn:Hd.
  - destruct (vers (sqlite_version d)) as [v|e] eqn:Hv.
    + pose proof (InitFacts.init_with_driver self d v Hd Hv) as Hi.
      rewrite Hrun in Hi. cbn [snd] in Hi. injection Hi as ->.
      destruct (tuple_lt Z.eqb Z.ltb (sqlite_version_info d) [3; 3; 8]); simpl;
        repeat split; auto; discriminate.
    + unfold __init__ in Hrun. rewrite Hd, Hv in Hrun. discriminate.
  - rewrite (InitFacts.init_without_driver self Hd) in Hrun.
    injection Hrun as <- <-. simpl. auto.
Qed.

Lemma init_frame_witness :
  exists self' log,
    __init__ legacy_dialect = (log, Returned self')
    /\ self_dbapi self' = self_dbapi legacy_dialect
    /\ (supports_default_values self' = true ->
        supports_default_values legacy_dialect = true).
Proof.
  eexists _, _. split; [reflexivity |].
  split; [| exact (proj1 (proj2 (init_frame legacy_dialect _ _ eq_refl)))].
  exact (proj1 (init_frame legacy_dialect _ _ eq_refl)).
Defined.

(** X7.  On a dialect constructed around a driver,
    [_get_server_version_info] returns the engine version tuple of that
    driver, the tuple the construction compared with (3, 3, 8). *)
Theorem server_version_after_init (self self' : SQLite_pysqlite) (d : Driver) :
  self_dbapi self = Some d -> (__init__ self).2 = Returned self' ->
  _get_server_version_info self' = Returned (sqlite_version_info d)
  /\ (supports_default_values self = true ->
      (supports_default_values self' = false
       <-> lex_lt (sqlite_version_info d) [3; 3; 8])).
Proof.
  intros Hd Hrun. destruct (vers (sqlite_version d)) as [v|e] eqn:Hv.
  2: { unfold __init__ in Hrun. rewrite Hd, Hv in Hrun. discriminate. }
  rewrite (InitFacts.init_with_driver self d v Hd Hv) in Hrun.
  injection Hrun as <-.
  rewrite <- tuple_lt_spec. unfold _get_server_version_info, dbapi_attr.
  destruct (tuple_lt Z.eqb Z.ltb (sqlite_version_info d) [3; 3; 8]); simpl;
    rewrite Hd; (split; [reflexivity |]); intros Hflag.
  - tauto.
  - rewrite Hflag. split; discriminate.
Qed.

Lemma server_version_after_init_witness :
  exists self',
    (__init__ legacy_dialect).2 = Returned self'
    /\ _get_server_version_info self' = Returned [3; 2].
Proof.
  eexists. split; [reflexivity |].
  exact (proj1 (server_version_after_init legacy_dialect _ legacy_driver
                  eq_refl eq_refl)).
Defined.

(** X8.  A dialect can be constructed without a driver, but on it
    [is_disconnect], for every error, and [_get_server_version_info]
    raise [AttributeError]. *)
Theorem no_driver_methods_raise (self : SQLite_pysqlite) :
  self_dbapi self = None ->
  exists self', __init__ self = ([], Returned self')
    /\ (forall e, exists msg, is_disconnect self' e = Raised (AttributeError msg))
    /\ exists msg, _get_server_version_info self' = Raised (AttributeError msg).
Proof.
  intros Hd. exists (set_supports_cast true self).
  split; [exact (InitFacts.init_without_driver self Hd) |].
  unfold is_disconnect, _get_server_version_info, dbapi_attr. simpl.
  rewrite Hd. simpl. split; [intros e |]; eexists; reflexivity.
Qed.

Lemma no_driver_methods_raise_witness :
  exists self', __init__ dialect_without_driver = ([], Returned self')
    /\ (forall e, exists msg, is_disconnect self' e = Raised (AttributeError msg))
    /\ exists msg, _get_server_version_info self' = Raised (AttributeError msg).
Proof. apply (no_driver_methods_raise dialect_without_driver). reflexivity. Defined.

(** X9.  A client library whose version is three integers x, y, z is
    warned about exactly when (x, y) is at most (2, 1): the third
    component is compared with a string and never decides, so every
    2.1.z is warned about.  The warning is emitted whether or not the
    construction then returns. *)
Theorem init_warning_iff (self : SQLite_pysqlite) (d : Driver) (x y z : Z) :
  self_dbapi self = Some d -> version_info d = [VInt x; VInt y; VInt z] ->
  (x < 2 \/ (x = 2 /\ y <= 1) ->
     (__init__ self).1 = [outdated_warning (version_info d)])
  /\ (~ (x < 2 \/ (x = 2 /\ y <= 1)) -> (__init__ self).1 = []).
Proof.
  intros Hd Hv. unfold __init__. rewrite Hd. cbn [fst]. rewrite Hv. simpl.
  destruct (Z.eqb_spec x 2) as [->|Hx].
  - destruct (Z.eqb_spec y 1) as [->|Hy]; simpl.
    + split; [reflexivity | intros H; destruct H; lia].
    + destruct (Z.ltb_spec y 1); split; try reflexivity; intros; lia.
  - destruct (Z.ltb_spec x 2); split; try reflexivity; intros; lia.
Qed.

Lemma init_warning_iff_witness :
  (__init__ legacy_dialect).1 = [outdated_warning [VInt 2; VInt 1; VInt 5]].
Proof.
  apply (proj1 (init_warning_iff legacy_dialect legacy_driver 2 1 5
                  eq_refl eq_refl)).
  right. lia.
Defined.

Lemma tuple_ge_threshold (v : list Z) :
  tuple_ge Z.eqb Z.ltb v [3; 2; 3] = cast_supported v.
Proof.
  unfold cast_supported.
  destruct v as [|a [|b [|c r]]]; try destruct r; simpl;
    repeat match goal with
           | |- context [Z.eqb ?p ?q] => destruct (Z.eqb_spec p q); subst
           | |- context [Z.ltb ?p ?q] => destruct (Z.ltb_spec p q)
           | |- context [Z.leb ?p ?q] => destruct (Z.leb_spec p q)
           end;
    simpl; try reflexivity; exfalso; lia.
Qed.

(** X10.  With a driver whose engine version string is read as the
    tuple [v], "supports cast" is decided by the first three
    components of [v] compared with 3, 2 and 3 in turn; a tuple that
    stops before a decision (3, or 3.2) leaves the flag cleared, and
    components after the third never matter. *)
Theorem init_supports_cast_components (self : SQLite_pysqlite) (d : Driver)
    (v : list Z) :
  self_dbapi self = Some d -> vers (sqlite_version d) = Returned v ->
  exists self', (__init__ self).2 = Returned self'
    /\ supports_cast self' = cast_supported v.
Proof.
  intros Hd Hv. eexists. split; [exact (InitFacts.init_with_driver self d v Hd Hv) |].
  apply tuple_ge_threshold.
Qed.

Lemma init_supports_cast_components_witness :
  exists self', (__init__ legacy_dialect).2 = Returned self'
    /\ supports_cast self' = false.
Proof.
  apply (init_supports_cast_components legacy_dialect legacy_driver [3; 2]);
    reflexivity.
Defined.

End InitLaws.

(* ===================================================================== *)
(** ** More on vers *)
(* ===================================================================== *)

Module VersionLaws.

(** *** Splitting at a separator *)

Lemma split_app (sep : ascii) (a r : string) :
  split sep (a +:+ String sep r) = split sep a ++ split sep r.
Proof.
  induction a as [|c a IH].
  - rewrite append_nil_l. simpl. now rewrite Ascii.eqb_refl.
  - rewrite append_cons. simpl. rewrite IH.
    destruct (Ascii.eqb c sep); [reflexivity |].
    pose proof (split_nonempty sep a) as Hne.
    now destruct (split sep a).
Qed.

Lemma ints_app (l1 l2 : list string) :
  ints (l1 ++ l2)
  = obind (ints l1) (fun v1 => obind (ints l2) (fun v2 => Returned (v1 ++ v2))).
Proof.
  induction l1 as [|x l1 IH]; simpl.
  - now destruct (ints l2).
  - destruct (int x) as [z|e]; simpl; [| reflexivity].
    rewrite IH. destruct (ints l1) as [v1|e]; simpl; [| reflexivity].
    now destruct (ints l2).
Qed.

(** X11.  The tuple read from a text with a dot in it is the tuple
    read from the part before the dot followed by the tuple read from
    the part after it; when a part cannot be read the whole cannot,
    with the exception of the earlier part. *)
Theorem vers_dot (a b : string) :
  vers (a +:+ "." +:+ b)
  = obind (vers a) (fun va => obind (vers b) (fun vb => Returned (va ++ vb))).
Proof.
  unfold vers. change ("." +:+ b) with (String "." b).
  rewrite split_app. apply ints_app.
Qed.

Lemma empty_not_literal : ~ integer_literal EmptyString.
Proof. intros [z H]. discriminate. Qed.

Lemma empty_component_split (s : string) :
  has_empty_component s -> EmptyString ∈ split "." s.
Proof.
  intros [-> | [[b ->] | [[a ->] | (a & b & ->)]]].
  - apply list_elem_of_here.
  - change ("." +:+ b) with (String "." b). simpl. apply list_elem_of_here.
  - change (a +:+ ".") with (a +:+ String "." EmptyString).
    rewrite split_app. apply elem_of_app. right. apply list_elem_of_here.
  - change (a +:+ ".." +:+ b) with (a +:+ String "." (String "." b)).
    rewrite split_app. apply elem_of_app. right. simpl. apply list_elem_of_here.
Qed.

(** X12.  A driver whose engine version string is empty, starts or
    ends with a dot, or has two dots in a row makes the construction
    raise [ValueError]. *)
Theorem init_raises_on_empty_component (self : SQLite_pysqlite) (d : Driver) :
  self_dbapi self = Some d -> has_empty_component (sqlite_version d) ->
  exists msg, (__init__ self).2 = Raised (ValueError msg).
Proof.
  intros Hd Hempty. apply empty_component_split in Hempty.
  unfold __init__. rewrite Hd. cbn [snd].
  destruct (vers (sqlite_version d)) as [v|e] eqn:Hv.
  - assert (Hall : Forall integer_literal (split "." (sqlite_version d))).
    { apply InitFacts.ints_returns_iff. now exists v. }
    rewrite Forall_forall in Hall. destruct empty_not_literal. now apply Hall.
  - apply InitFacts.ints_raises in Hv as [msg ->]. now exists msg.
Qed.

Lemma init_raises_on_empty_component_witness :
  exists msg, (__init__ dotted_dialect).2 = Raised (ValueError msg).
Proof.
  apply (init_raises_on_empty_component dotted_dialect dotted_driver eq_refl).
  right. right. left. now exists "3.8"%string.
Defined.

(** *** Reading back a printed integer *)

Lemma is_digit_not_space (c : ascii) : is_digit c = true -> is_space c = false.
Proof.
  unfold is_digit, is_space. generalize (N_of_ascii c). intros n.
  rewrite andb_true_iff, !N.leb_le. intros [H1 H2].
  apply orb_false_iff. split.
  - apply andb_false_iff. right. apply N.leb_gt. lia.
  - apply N.eqb_neq. lia.
Qed.

Lemma rstrip_digits (s : string) : digits_only s = true -> rstrip s = s.
Proof.
  induction s as [|c s IH]; simpl; [reflexivity |].
  rewrite andb_true_iff. intros [Hc Hs]. rewrite (IH Hs).
  destruct s; [| reflexivity]. now rewrite (is_digit_not_space c Hc).
Qed.

Lemma strip_digits (s : string) : digits_only s = true -> strip s = s.
Proof.
  intros Hs. unfold strip. destruct s as [|c s]; [reflexivity |].
  simpl in Hs. apply andb_true_iff in Hs as [Hc Hs].
  cbn [lstrip]. rewrite (is_digit_not_space c Hc).
  apply rstrip_digits. simpl. now rewrite Hc.
Qed.

Lemma unsigned_literal_digits (s : string) :
  s <> EmptyString -> digits_only s = true ->
  unsigned_literal s = digits_value 0 s.
Proof.
  intros Hne Hs. unfold unsigned_literal. destruct s as [|c s]; [congruence |].
  simpl in Hs. apply andb_true_iff in Hs as [Hc _].
  cbn [lstrip]. now rewrite (is_digit_not_space c Hc).
Qed.

Lemma int_literal_digits (s : string) :
  s <> EmptyString -> digits_only s = true ->
  int_literal s = digits_value 0 s.
Proof.
  intros Hne Hs. unfold int_literal. rewrite (strip_digits s Hs).
  rewrite <- (unsigned_literal_digits s Hne Hs).
  destruct s as [|c s]; [congruence |].
  simpl in Hs. apply andb_true_iff in Hs as [Hc _].
  destruct c as [[] [] [] [] [] [] [] []];
    try (vm_compute in Hc; discriminate Hc); reflexivity.
Qed.

Lemma pretty_char_digit (k : N) : is_digit (pretty_N_char k) = true.
Proof. unfold pretty_N_char. repeat case_match; reflexivity. Qed.

Lemma pretty_char_value (k : N) :
  (k < 10)%N -> digit_val (pretty_N_char k) = Z.of_N k.
Proof.
  intros Hk.
  assert (k = 0 \/ k = 1 \/ k = 2 \/ k = 3 \/ k = 4 \/ k = 5 \/ k = 6
          \/ k = 7 \/ k = 8 \/ k = 9)%N as Hcases by lia.
  repeat destruct Hcases as [-> | Hcases]; try reflexivity.
  now subst.
Qed.

Lemma pretty_go_digits (x : N) (s : string) :
  digits_only s = true -> digits_only (pretty_N_go x s) = true.
Proof.
  revert s. induction (N.lt_wf_0 x) as [x _ IH]. intros s Hs.
  destruct (N.eq_dec x 0%N) as [->|Hx]; [now rewrite pretty_N_go_0 |].
  rewrite pretty_N_go_step by lia. apply IH.
  - apply N.div_lt; lia.
  - simpl. now rewrite pretty_char_digit.
Qed.

Lemma pretty_go_value (x : N) (s : string) :
  digits_value 0 (pretty_N_go x s) = digits_value (Z.of_N x) s.
Proof.
  revert s. induction (N.lt_wf_0 x) as [x _ IH]. intros s.
  destruct (N.eq_dec x 0%N) as [->|Hx]; [now rewrite pretty_N_go_0 |].
  rewrite pretty_N_go_step by lia. rewrite IH by (apply N.div_lt; lia).
  simpl. rewrite pretty_char_digit.
  rewrite pretty_char_value by (apply N.mod_lt; lia).
  f_equal. rewrite N2Z.inj_div, N2Z.inj_mod. simpl Z.of_N.
  pose proof (Z.div_mod (Z.of_N x) 10). lia.
Qed.

Lemma pretty_go_nonempty (x : N) (s : string) :
  s <> EmptyString -> pretty_N_go x s <> EmptyString.
Proof.
  revert s. induction (N.lt_wf_0 x) as [x _ IH]. intros s Hs.
  destruct (N.eq_dec x 0%N) as [->|Hx]; [now rewrite pretty_N_go_0 |].
  rewrite pretty_N_go_step by lia. apply IH; [apply N.div_lt; lia | discriminate].
Qed.

Lemma pretty_pos_digits (p : positive) :
  pretty (Npos p) <> EmptyString
  /\ digits_only (pretty (Npos p)) = true
  /\ digits_value 0 (pretty (Npos p)) = Some (Zpos p).
Proof.
  unfold pretty, pretty_N. destruct (decide (N.pos p = 0%N)); [discriminate |].
  repeat split.
  - rewrite pretty_N_go_step by lia. now apply pretty_go_nonempty.
  - now apply pretty_go_digits.
  - now rewrite pretty_go_value.
Qed.

Lemma int_literal_pretty (z : Z) : int_literal (pretty z) = Some z.
Proof.
  unfold pretty, pretty_Z. destruct z as [|p|p].
  - reflexivity.
  - destruct (pretty_pos_digits p) as (Hne & Hd & Hv).
    change (pretty_positive p) with (pretty (Npos p)).
    now rewrite int_literal_digits.
  - destruct (pretty_pos_digits p) as (Hne & Hd & Hv).
    change ("-" +:+ pretty p) with (String "-" (pretty (N.pos p))).
    unfold int_literal, strip. cbn [lstrip].
    change (is_space "-") with false. cbv iota.
    assert (Hr : rstrip (String "-" (pretty (N.pos p)))
                 = String "-" (pretty (N.pos p))).
    { cbn [rstrip]. rewrite (rstrip_digits _ Hd).
      destruct (pretty (N.pos p)); [congruence | reflexivity]. }
    rewrite Hr. rewrite (unsigned_literal_digits _ Hne Hd), Hv. reflexivity.
Qed.

Lemma split_digits (s : string) : digits_only s = true -> split "." s = [s].
Proof.
  induction s as [|c s IH]; simpl; [reflexivity |].
  rewrite andb_true_iff. intros [Hc Hs]. rewrite (IH Hs).
  destruct (Ascii.eqb_spec c ".") as [->|Hne]; [discriminate Hc | reflexivity].
Qed.

Lemma split_pretty (z : Z) : split "." (pretty z) = [pretty z].
Proof.
  unfold pretty, pretty_Z. destruct z as [|p|p].
  - reflexivity.
  - apply split_digits. apply (pretty_pos_digits p).
  - change ("-" +:+ pretty p) with (String "-" (pretty (N.pos p))).
    cbn [split]. change (Ascii.eqb "-" ".") with false. cbv iota.
    now rewrite split_digits by apply (pretty_pos_digits p).
Qed.

Lemma split_join (l : list string) :
  l <> [] -> Forall (fun x => split "." x = [x]) l ->
  split "." (join "." l) = l.
Proof.
  induction l as [|x l IH]; [congruence |]. intros _ Hall.
  apply Forall_cons in Hall as [Hx Hl]. destruct l as [|y l].
  - exact Hx.
  - rewrite join_cons by discriminate.
    change ("." +:+ join "." (y :: l)) with (String "." (join "." (y :: l))).
    rewrite split_app, Hx, IH by (discriminate || assumption). reflexivity.
Qed.

Lemma ints_pretty (v : list Z) : ints (map pretty v) = Returned v.
Proof.
  induction v as [|z v IH]; simpl; [reflexivity |].
  unfold int. rewrite int_literal_pretty. simpl. now rewrite IH.
Qed.

(** X13.  [vers] reads back every tuple of integers that is not empty
    from its dotted text, the text the warning of [__init__] prints
    for a version. *)
Theorem vers_dotted (v : list Z) : v <> [] -> vers (dotted v) = Returned v.
Proof.
  intros Hne. unfold vers, dotted.
  change (map (fun z => vcomp_str (VInt z)) v) with (map pretty v).
  rewrite split_join.
  - apply ints_pretty.
  - now destruct v.
  - apply Forall_forall. intros x Hx. apply list_elem_of_fmap in Hx as (z & -> & _).
    apply split_pretty.
Qed.

Lemma vers_dotted_witness : vers (dotted [3; 6; 23; 1]) = Returned [3; 6; 23; 1].
Proof. apply (vers_dotted [3; 6; 23; 1]). discriminate. Defined.

End VersionLaws.

(* ===================================================================== *)
(** ** More on create_connect_args *)
(* ===================================================================== *)

Module ConnectLaws.
Import ConnectFacts.

Lemma elem_declared_type (opts : list (string * pytype)) (k : string) (t : pytype) :
  NoDup opts.*1 -> (k, t) ∈ opts -> declared_type opts k = Some t.
Proof.
  induction opts as [|[k0 t0] r IH]; simpl; intros Hnd Hin.
  - now apply elem_of_nil in Hin.
  - apply NoDup_cons in Hnd as [Hfresh Hnd].
    apply elem_of_cons in Hin as [Heq | Hin].
    + injection Heq as -> ->. now rewrite String.eqb_refl.
    + destruct (String.eqb_spec k0 k) as [->|Hne]; [| now apply IH].
      destruct Hfresh. apply list_elem_of_fmap. now exists (k, t).
Qed.

Section with_environment.
Variable float_literal : string -> option float.
Variable URL_str : URL -> heap -> string.

Lemma coerce_all_convertible (q d' : dict) :
  coerce_all float_literal option_types q = Returned d' ->
  convertible float_literal q.
Proof.
  intros Hrun k t s Hin Hk.
  pose proof (coerce_all_lookup float_literal option_types q d'
                (option_types_NoDup) Hrun k) as Hlook.
  rewrite Hk, (elem_declared_type _ k t option_types_NoDup Hin) in Hlook.
  destruct Hlook as (v & Hv & _). now exists v.
Qed.

(** X14.  On a URL without credentials and address whose query holds a
    recognised option that cannot be converted, [create_connect_args]
    returns nothing: it raises [ValueError], and the query dictionary
    of the URL still has the entries it had. *)
Theorem create_connect_args_unconvertible (url : URL) (h : heap) (q : dict) :
  ~ has_credentials_or_address url -> h !! query url = Some q ->
  ~ convertible float_literal q ->
  exists h' msg,
    create_connect_args float_literal URL_str url h
    = Some (h', Raised (ValueError msg))
    /\ h' !! query url = Some q.
Proof.
  intros Hok Hq Hbad.
  destruct (create_connect_args_run float_literal URL_str url h q Hok Hq)
    as (d1 & Hrun & _).
  destruct (coerce_all float_literal option_types q) as [d'|e] eqn:Hc.
  - destruct Hbad. exact (coerce_all_convertible q d' Hc).
  - apply coerce_all_raises in Hc as [msg ->].
    exists (<[fresh (dom h) := d1]> h), msg. split; [exact Hrun |].
    rewrite lookup_insert_ne; [exact Hq |].
    apply fresh_loc_unused. now rewrite Hq.
Qed.

(** X15.  On URLs without credentials and address the result depends
    on the database part and the query dictionary alone: two such URLs
    with the same query dictionary that stand for the same file give
    the same result, whatever their driver names and whether their
    empty parts are [None], [''] or a port [0]. *)
Theorem create_connect_args_depends_on (url1 url2 : URL) (h : heap) :
  ~ has_credentials_or_address url1 -> ~ has_credentials_or_address url2 ->
  filename_of url1 = filename_of url2 -> query url1 = query url2 ->
  create_connect_args float_literal URL_str url1 h
  = create_connect_args float_literal URL_str url2 h.
Proof.
  intros Hok1 Hok2 Hfile Hquery.
  rewrite (create_connect_args_steps float_literal URL_str url1 h Hok1).
  rewrite (create_connect_args_steps float_literal URL_str url2 h Hok2).
  now rewrite Hfile, Hquery.
Qed.

End with_environment.

Lemma bad_query_unconvertible : ~ convertible sample_float_literal bad_query.
Proof.
  intros H. destruct (H "detect_types"%string Tint "all"%string) as [v Hv].
  - unfold option_types. do 2 apply list_elem_of_further. apply list_elem_of_here.
  - reflexivity.
  - vm_compute in Hv. discriminate.
Qed.

Lemma create_connect_args_unconvertible_witness :
  exists h' msg,
    create_connect_args sample_float_literal sample_URL_str file_url bad_heap
    = Some (h', Raised (ValueError msg))
    /\ h' !! query file_url = Some bad_query.
Proof.
  apply (create_connect_args_unconvertible sample_float_literal sample_URL_str
           file_url bad_heap bad_query file_url_accepted eq_refl).
  exact bad_query_unconvertible.
Defined.

Lemma blank_credentials_url_accepted :
  ~ has_credentials_or_address blank_credentials_url.
Proof. rewrite <- url_check_spec. simpl. discriminate. Qed.

Lemma create_connect_args_depends_on_witness :
  create_connect_args sample_float_literal sample_URL_str file_url sample_heap
  = create_connect_args sample_float_literal sample_URL_str
      blank_credentials_url sample_heap.
Proof.
  apply (create_connect_args_depends_on sample_float_literal sample_URL_str
           file_url blank_credentials_url sample_heap
           file_url_accepted blank_credentials_url_accepted);
    reflexivity.
Defined.

End ConnectLaws.

(* ===================================================================== *)
(** ** The flags and the order of versions *)
(* ===================================================================== *)

Module OrderLaws.

(** A tuple below a bound stays below it when replaced by a tuple that
    is not above it. *)
Lemma lex_lt_le_trans (a b t : list Z) :
  lex_lt b t -> ~ lex_lt b a -> lex_lt a t.
Proof.
  intros Hbt. revert a. induction Hbt as [y t | x y b t Hxy | x b t Hbt IH];
    intros a Hba.
  - destruct a as [|z a]; [constructor |]. destruct Hba. constructor.
  - destruct a as [|z a]; [constructor |].
    destruct (Z.lt_trichotomy x z) as [Hlt | [-> | Hgt]].
    + destruct Hba. now constructor.
    + now constructor.
    + constructor. lia.
  - destruct a as [|z a]; [constructor |].
    destruct (Z.lt_trichotomy x z) as [Hlt | [-> | Hgt]].
    + destruct Hba. now constructor.
    + apply lex_lt_tail. apply IH. intros H. apply Hba. now constructor.
    + now constructor.
Qed.

(** X16.  The two flags are monotone in the engine version: of two
    dialects constructed around drivers, the one whose engine version
    is not lower supports the cast whenever the other does, and keeps
    "supports default values" whenever the other keeps it. *)
Theorem capabilities_monotone (self1 self2 : SQLite_pysqlite)
    (d1 d2 : Driver) (v1 v2 : list Z) :
  self_dbapi self1 = Some d1 -> self_dbapi self2 = Some d2 ->
  vers (sqlite_version d1) = Returned v1 ->
  vers (sqlite_version d2) = Returned v2 ->
  exists new1 new2,
    (__init__ self1).2 = Returned new1 /\ (__init__ self2).2 = Returned new2
    /\ (~ lex_lt v2 v1 -> supports_cast new1 = true -> supports_cast new2 = true)
    /\ (~ lex_lt (sqlite_version_info d2) (sqlite_version_info d1) ->
        supports_default_values self2 = true ->
        supports_default_values new1 = true ->
        supports_default_values new2 = true).
Proof.
  intros Hd1 Hd2 Hv1 Hv2. eexists _, _.
  split; [exact (InitFacts.init_with_driver self1 d1 v1 Hd1 Hv1) |].
  split; [exact (InitFacts.init_with_driver self2 d2 v2 Hd2 Hv2) |].
  split.
  - simpl. rewrite !tuple_ge_spec. intros Hle H1 H2.
    apply H1. exact (lex_lt_le_trans v1 v2 _ H2 Hle).
  - intros Hle Hflag.
    destruct (tuple_lt Z.eqb Z.ltb (sqlite_version_info d1) [3; 3; 8]) eqn:H1;
      simpl; [discriminate |].
    intros _.
    destruct (tuple_lt Z.eqb Z.ltb (sqlite_version_info d2) [3; 3; 8]) eqn:H2;
      simpl; [| exact Hflag].
    apply tuple_lt_spec in H2.
    apply (lex_lt_le_trans (sqlite_version_info d1)) in H2; [| exact Hle].
    apply tuple_lt_spec in H2. congruence.
Qed.

Lemma capabilities_monotone_witness :
  exists new1 new2,
    (__init__ dialect_3_2_3).2 = Returned new1
    /\ (__init__ sample_dialect).2 = Returned new2
    /\ (~ lex_lt [3; 8; 0] [3; 2; 3] ->
        supports_cast new1 = true -> supports_cast new2 = true)
    /\ (~ lex_lt (sqlite_version_info sample_driver)
            (sqlite_version_info driver_3_2_3) ->
        supports_default_values sample_dialect = true ->
        supports_default_values new1 = true ->
        supports_default_values new2 = true).
Proof.
  apply (capabilities_monotone dialect_3_2_3 sample_dialect
           driver_3_2_3 sample_driver [3; 2; 3] [3; 8; 0]); reflexivity.
Defined.

End OrderLaws.
